(** * mesop-arena, [models/generate.py]: image generation drivers and the
      provenance query

    A shallow embedding of the three entry points of [models/generate.py]
    ([images_from_flux], [images_from_imagen], [study_fetch]) together with
    the Python library functions they lean on, followed by the properties
    the design document states about them.

    Strings are [string]; dictionaries are [gmap]; the drivers run in a
    state-and-exception monad over a world that holds the log, the calls
    made to the outside, and the states of clock, providers, object store
    and metadata store.  The services the module imports
    ([common.storage], [common.metadata], [config.default], the Vertex AI
    clients) are parameters.  [base64_to_image] has no caller in the module
    and is left out. *)

From Stdlib Require Import ZArith QArith Ascii String.
From stdpp Require Import gmap strings list pretty.

(** ** Python values used by the module *)

(** Exceptions.  Every class listed here derives from Python's [Exception],
    which is what the handlers of the module catch; [str_of_exn] is
    [str(e)], for a [KeyError] the key between apostrophes, as [repr]
    writes a key that holds neither an apostrophe nor a character to
    escape.  [UnknownModelError] is the error of the dispatch facade, and
    [Exception cls msg] stands for the errors of the services called. *)
Inductive exn : Type :=
| KeyError (key : string)
| ValueError (msg : string)
| TypeError (msg : string)
| IndexError (msg : string)
| UnknownModelError (model_id : string)
| Exception (cls : string) (msg : string).

Definition str_of_exn (e : exn) : string :=
  match e with
  | KeyError key => "'" +:+ key +:+ "'"
  | ValueError msg | TypeError msg | IndexError msg => msg
  | UnknownModelError model_id => model_id
  | Exception _ msg => msg
  end.

(** Operations of [str], on strings of characters. *)
Module PyStr.
Local Open Scope Z_scope.

(** [s.startswith(prefix)] *)
Definition startswith (s prefix : string) : bool := String.prefix prefix s.

(** [sub in s] *)
Fixpoint contains (sub s : string) : bool :=
    String.prefix sub s
    || match s with
       | EmptyString => false
       | String _ s' => contains sub s'
       end.

(** [s.rfind(c)] for a one-character needle: the highest index at which
      [c] occurs, [-1] when it does not occur. *)
Fixpoint rfind (c : ascii) (s : string) : Z :=
    match s with
    | EmptyString => -1
    | String a s' =>
        let r := rfind c s' in
        if 0 <=? r then r + 1 else if Ascii.eqb a c then 0 else -1
    end.

(** [s[:n]] for [0 <= n] *)
Fixpoint take (n : nat) (s : string) : string :=
    match n, s with
    | S n', String a s' => String a (take n' s')
    | _, _ => EmptyString
    end.

(** [s[n:]] for [0 <= n] *)
Fixpoint drop (n : nat) (s : string) : string :=
    match n, s with
    | S n', String _ s' => drop n' s'
    | _, _ => s
    end.

(** [s[i:j]] for [0 <= i <= j] *)
Definition slice (i j : nat) (s : string) : string := take (j - i) (drop i s).

End PyStr.

(** ** [os.path.splitext] *)

Module genericpath.
Local Open Scope Z_scope.

(** The loop of [_splitext] that skips the leading dots of the last path
      component: [todo] is [dotIndex - filenameIndex], the number of
      iterations left.  [true] when a character other than [extsep] is met
      (the [return p[:dotIndex], p[dotIndex:]] inside the loop). *)
Fixpoint skip_leading_dots (p : string) (extsep : ascii)
      (filenameIndex todo : nat) : bool :=
    match todo with
    | O => false
    | S todo' =>
        if negb (String.eqb (PyStr.slice filenameIndex (filenameIndex + 1) p)
                            (String extsep EmptyString))
        then true
        else skip_leading_dots p extsep (S filenameIndex) todo'
    end.

Definition _splitext (p : string) (sep : ascii) (altsep : option ascii)
      (extsep : ascii) : string * string :=
    let sepIndex := PyStr.rfind sep p in
    let sepIndex :=
      match altsep with
      | Some a => Z.max sepIndex (PyStr.rfind a p)
      | None => sepIndex
      end in
    let dotIndex := PyStr.rfind extsep p in
    if (sepIndex <? dotIndex)
       && skip_leading_dots p extsep (Z.to_nat (sepIndex + 1))
            (Z.to_nat (dotIndex - (sepIndex + 1)))
    then (PyStr.take (Z.to_nat dotIndex) p, PyStr.drop (Z.to_nat dotIndex) p)
    else (p, PyStr.take 0 p).

End genericpath.

Module posixpath.
Local Open Scope Z_scope.
Definition sep : ascii := "/"%char.
Definition altsep : option ascii := None.
Definition extsep : ascii := "."%char.

Definition splitext (p : string) : string * string :=
    genericpath._splitext p sep altsep extsep.

(** [os.path.basename]: what follows the last separator. *)
Definition basename (p : string) : string :=
    PyStr.drop (Z.to_nat (PyStr.rfind sep p + 1)) p.
End posixpath.

(** ** [random.sample(population, 1)] *)

(** [j] is the index the generator's [_randbelow(n)] hands back for this
    call, [n] being the size of the population.  With [k = 1] both branches
    of CPython's [sample] put [population[j]] in the one-element result. *)
Definition random_sample_1 {A : Type} (j : nat) (population : list A)
    : exn + list A :=
  let n := length population in
  if negb (1 <=? n)%nat
  then inl (ValueError "Sample larger than population or is negative")
  else match population !! j with
       | Some x => inr [x]
       | None => inl (IndexError "list index out of range")
       end.

(** ** The provenance query: [study_fetch] *)

(** A Firestore document, as [doc.to_dict()] presents it (string-valued
    fields only). *)
Abbreviation document := (gmap string string).

(** What a call prints and how it ends. *)
Record outcome (A : Type) : Type := Outcome {
  stdout : list string;
  result : exn + A;
}.
Arguments Outcome {A} _ _.
Arguments stdout {A} _.
Arguments result {A} _.

(** [collection_ref.where(prompt == ..).where(model == ..).stream()] *)
Definition where_eq (field value : string) (docs : list document)
    : list document :=
  filter (λ d, d !! field = Some value) docs.

Definition study_fetch_query (collection : list document)
    (model_name prompt : string) : list document :=
  where_eq "model" model_name (where_eq "prompt" prompt collection).

(** The value one iteration of the loop appends to [docs]. *)
Definition study_fetch_entry (gs_uri : string) : string :=
  if negb (PyStr.contains "stablediffusion" gs_uri)
  then fst (posixpath.splitext gs_uri)
  else if PyStr.startswith gs_uri "20250328_"
       then fst (posixpath.splitext gs_uri)
       else gs_uri.

Fixpoint study_fetch_loop (query : list document) (docs : list string)
    : exn + list string :=
  match query with
  | [] => inr docs
  | doc :: query' =>
      match doc !! "gcsuri" with
      | None => inl (KeyError "gcsuri")
      | Some gs_uri =>
          study_fetch_loop query' (docs ++ [study_fetch_entry gs_uri])
      end
  end.

Definition study_fetch (collection : list document) (j : nat)
    (model_name prompt : string) : outcome (list string) :=
  let query := study_fetch_query collection model_name prompt in
  Outcome ["Using: " +:+ model_name]
    (match study_fetch_loop query [] with
     | inl e => inl e
     | inr docs => random_sample_1 j docs
     end).

(** The document of a provenance record. *)
Definition mkdoc (gs_uri prompt model_name : string) : document :=
  <["gcsuri" := gs_uri]> (<["prompt" := prompt]> (<["model" := model_name]> ∅)).


(** ** The world the drivers run in *)

Inductive level : Type := INFO | ERROR.

(** What the process writes: [logging] records and [print]ed lines. *)
Inductive output : Type :=
| Log (lvl : level) (msg : string)
| Print (line : string).

(** [config.default.Default]: the settings the module reads. *)
Record Default : Type := {
  PROJECT_ID : string;
  LOCATION : string;
  GENMEDIA_BUCKET : string;
  MODEL_FLUX1 : string;
  MODEL_FLUX1_ENDPOINT_ID : string;
  IMAGE_FIREBASE_DB : string;
  IMAGE_COLLECTION_NAME : string;
}.

(** The keyword arguments of [ImageGenerationModel.generate_images]. *)
Record imagen_request : Type := {
  rq_prompt : string;
  rq_add_watermark : bool;
  rq_aspect_ratio : string;
  rq_number_of_images : Z;
  rq_output_gcs_uri : string;
  rq_language : string;
  rq_safety_filter_level : string;
}.

(** An image of an Imagen response: its storage reference and what
    [_as_base64_string()] gives.  The method is a call into the SDK made
    outside the handler; here it is the value it returns, so the runs of
    the model are those in which it returns one. *)
Record GeneratedImage : Type := {
  _gcs_uri : string;
  _as_base64_string : string;
}.

(** Calls that leave the process, in the order they are made. *)
Inductive event : Type :=
| AiplatformInit (project location : string)
| VertexaiInit (project location : string)
| EndpointPredict (endpoint : string) (instances : list (gmap string string))
    (parameters : gmap string Z)
| GenerateImages (model_name : string) (request : imagen_request)
| StoreToGcs (folder file_name mime_type : string) (contents : option string)
    (decode : bool)
| AddImageMetadata (gcsuri prompt model_name : string) (raised : option exn).

Definition is_store (ev : event) : bool :=
  match ev with StoreToGcs _ _ _ _ _ => true | _ => false end.

Definition is_add_metadata (ev : event) : bool :=
  match ev with AddImageMetadata _ _ _ _ => true | _ => false end.

Section World.

(** [Time] is the type of [time.time()] readings; the other four are the
    states of the wall clock, the generation providers, the object store
    and the metadata store. *)
Context {Time Clock Provider Bucket Firestore : Type}.

Record world : Type := World {
  w_out : list output;
  w_trace : list event;
  w_uuids : nat;
  w_clock : Clock;
  w_provider : Provider;
  w_bucket : Bucket;
  w_firestore : Firestore;
}.

(** A computation: it ends with a value or a raised exception, and leaves
    a world behind either way. *)
Definition M (A : Type) : Type := world → (exn + A) * world.

Definition ret {A : Type} (a : A) : M A := λ w, (inr a, w).

Definition raise {A : Type} (e : exn) : M A := λ w, (inl e, w).

Definition bind {A B : Type} (m : M A) (k : A → M B) : M B :=
  λ w, match m w with
       | (inr a, w') => k a w'
       | (inl e, w') => (inl e, w')
       end.

(** [try: m  except Exception as e: handler(e)] *)
Definition try_except {A : Type} (m : M A) (handler : exn → M A) : M A :=
  λ w, match m w with
       | (inr a, w') => (inr a, w')
       | (inl e, w') => handler e w'
       end.

#[global] Instance M_ret : MRet M := @ret.
#[global] Instance M_bind : MBind M := λ A B k m, bind m k.

(** [for idx, x in enumerate(items): s = body(idx, x, s)], counting from
    [idx]. *)
Fixpoint for_enumerate {A St : Type} (body : nat → A → St → M St)
    (idx : nat) (items : list A) (s : St) : M St :=
  match items with
  | [] => ret s
  | x :: items' => s' ← body idx x s; for_enumerate body (S idx) items' s'
  end.

Definition emit (o : output) : M unit :=
  λ w, (inr (), World (w_out w ++ [o]) (w_trace w) (w_uuids w) (w_clock w)
                  (w_provider w) (w_bucket w) (w_firestore w)).

Definition record (ev : event) : M unit :=
  λ w, (inr (), World (w_out w) (w_trace w ++ [ev]) (w_uuids w) (w_clock w)
                  (w_provider w) (w_bucket w) (w_firestore w)).

Definition logging_info (msg : string) : M unit := emit (Log INFO msg).
Definition logging_error (msg : string) : M unit := emit (Log ERROR msg).
Definition print (line : string) : M unit := emit (Print line).

(** [len(x)], [None] standing for Python's [None]; a string counts one
    per [ascii], which is its number of characters when the text is
    ASCII, as base64 text is. *)
Definition len (x : option string) : M nat :=
  match x with
  | Some s => ret (String.length s)
  | None => raise (TypeError "object of type 'NoneType' has no len()")
  end.

(** *** The collaborators *)

(** [config = Default()] *)
Variable config : Default.

(** [time.time()], and the text of [f"{end - start:.2f}"]. *)
Variable time_time : Clock → Time * Clock.
Variable elapsed_2f : Time → Time → string.

(** [str(uuid.uuid4())] of the [k]-th identifier the process draws. *)
Variable uuid4_str : nat → string.

(** [aiplatform.Endpoint(name).predict(instances, parameters).predictions] *)
Variable predict : string → list (gmap string string) → gmap string Z →
  Provider → (exn + list (gmap string string)) * Provider.

(** [ImageGenerationModel.from_pretrained(model_name).generate_images(..).images] *)
Variable generate_images : string → imagen_request →
  Provider → (exn + list GeneratedImage) * Provider.

(** [common.storage.store_to_gcs(folder, file_name, mime_type, contents, decode)] *)
Variable store_to_gcs : string → string → string → option string → bool →
  Bucket → (exn + string) * Bucket.

(** [common.metadata.add_image_metadata(gcsuri, prompt, model)]; [Some e]
    when it raises [e]. *)
Variable add_image_metadata : string → string → string →
  Firestore → option exn * Firestore.

Definition py_time : M Time :=
  λ w, let '(t, c) := time_time (w_clock w) in
       (inr t, World (w_out w) (w_trace w) (w_uuids w) c
                 (w_provider w) (w_bucket w) (w_firestore w)).

Definition uuid4 : M string :=
  λ w, (inr (uuid4_str (w_uuids w)),
        World (w_out w) (w_trace w) (S (w_uuids w)) (w_clock w)
          (w_provider w) (w_bucket w) (w_firestore w)).

Definition call_predict (endpoint : string)
    (instances : list (gmap string string)) (parameters : gmap string Z)
    : M (list (gmap string string)) :=
  λ w, let '(r, p) := predict endpoint instances parameters (w_provider w) in
       (r, World (w_out w)
             (w_trace w ++ [EndpointPredict endpoint instances parameters])
             (w_uuids w) (w_clock w) p (w_bucket w) (w_firestore w)).

Definition call_generate_images (model_name : string)
    (request : imagen_request) : M (list GeneratedImage) :=
  λ w, let '(r, p) := generate_images model_name request (w_provider w) in
       (r, World (w_out w) (w_trace w ++ [GenerateImages model_name request])
             (w_uuids w) (w_clock w) p (w_bucket w) (w_firestore w)).

Definition call_store_to_gcs (folder file_name mime_type : string)
    (contents : option string) (decode : bool) : M string :=
  λ w, let '(r, b) :=
         store_to_gcs folder file_name mime_type contents decode (w_bucket w) in
       (r, World (w_out w)
             (w_trace w ++ [StoreToGcs folder file_name mime_type contents decode])
             (w_uuids w) (w_clock w) (w_provider w) b (w_firestore w)).

Definition call_add_image_metadata (gcsuri prompt model_name : string)
    : M unit :=
  λ w, let '(r, f) :=
         add_image_metadata gcsuri prompt model_name (w_firestore w) in
       (match r with Some e => inl e | None => inr () end,
        World (w_out w)
          (w_trace w ++ [AddImageMetadata gcsuri prompt model_name r])
          (w_uuids w) (w_clock w) (w_provider w) (w_bucket w) f).

(** *** [images_from_flux] *)

Definition flux_instances (prompt : string) : list (gmap string string) :=
  [ {[ "text" := prompt ]} ].

Definition flux_parameters : gmap string Z :=
  <["height" := 1024%Z]>
    (<["width" := 1024%Z]> (<["num_inference_steps" := 4%Z]> ∅)).

Definition flux_endpoint : string :=
  "projects/" +:+ PROJECT_ID config +:+ "/locations/" +:+ LOCATION config
  +:+ "/endpoints/" +:+ MODEL_FLUX1_ENDPOINT_ID config.

(** The handler of both drivers' [except Exception as e]. *)
Definition log_metadata_error (log_timeout log_other : string) (e : exn)
    : M unit :=
  if PyStr.contains "DeadlineExceeded" (str_of_exn e)
  then logging_error (log_timeout +:+ str_of_exn e)
  else logging_error (log_other +:+ str_of_exn e).

Definition flux_body (model_name prompt elapsed_time : string) (idx : nat)
    (img : option string) (arena_output : list string) : M (list string) :=
  logging_info ("Generated image " +:+ pretty idx +:+ " with model "
                +:+ model_name +:+ " in " +:+ elapsed_time +:+ " seconds");;
  name ← uuid4;
  gcs_uri ← call_store_to_gcs "flux1" (name +:+ ".png") "image/png" img true;
  let gcs_uri := "gs://" +:+ gcs_uri in
  n ← len img;
  logging_info ("generated image: " +:+ pretty idx +:+ " len " +:+ pretty n
                +:+ " at " +:+ gcs_uri);;
  let arena_output := arena_output ++ [gcs_uri] in
  logging_info ("image created: " +:+ gcs_uri);;
  try_except (call_add_image_metadata gcs_uri prompt model_name)
    (log_metadata_error "Firestore timeout: " "Error adding image metadata: ");;
  mret arena_output.

Definition images_from_flux (model_name prompt aspect_ratio : string)
    : M (list string) :=
  let _ := aspect_ratio in
  start_time ← py_time;
  let arena_output := [] in
  logging_info ("model: " +:+ model_name);;
  logging_info ("prompt: " +:+ prompt);;
  logging_info ("target output: " +:+ GENMEDIA_BUCKET config);;
  record (AiplatformInit (PROJECT_ID config) (LOCATION config));;
  let instances := flux_instances prompt in
  let parameters := flux_parameters in
  print "calling endpoint";;
  predictions ← call_predict flux_endpoint instances parameters;
  end_time ← py_time;
  let elapsed_time := elapsed_2f start_time end_time in
  let images := map (λ prediction : gmap string string, prediction !! "output")
                  predictions in
  for_enumerate (flux_body model_name prompt elapsed_time) 0 images
    arena_output.

(** *** [images_from_imagen] *)

Definition imagen_body (model_name prompt elapsed_time : string) (idx : nat)
    (img : GeneratedImage) (arena_output : list string) : M (list string) :=
  logging_info ("Generated image " +:+ pretty idx +:+ " with model "
                +:+ model_name +:+ " in " +:+ elapsed_time +:+ " seconds");;
  logging_info ("Generated image: #" +:+ pretty idx +:+ ", len "
                +:+ pretty (String.length (_as_base64_string img))
                +:+ " at " +:+ _gcs_uri img);;
  let arena_output := arena_output ++ [_gcs_uri img] in
  logging_info ("Image created: " +:+ _gcs_uri img);;
  try_except (call_add_image_metadata (_gcs_uri img) prompt model_name)
    (log_metadata_error "Firestore timeout: " "Error adding image metadata: ");;
  mret arena_output.

Definition imagen_request_of (prompt aspect_ratio : string) : imagen_request :=
  {| rq_prompt := prompt;
     rq_add_watermark := true;
     rq_aspect_ratio := aspect_ratio;
     rq_number_of_images := 1%Z;
     rq_output_gcs_uri := "gs://" +:+ GENMEDIA_BUCKET config +:+ "/imagen_live";
     rq_language := "auto";
     rq_safety_filter_level := "block_few" |}.

Definition images_from_imagen (model_name prompt aspect_ratio : string)
    : M (list string) :=
  start_time ← py_time;
  let arena_output := [] in
  logging_info ("model: " +:+ model_name);;
  logging_info ("prompt: " +:+ prompt);;
  logging_info ("target output: " +:+ GENMEDIA_BUCKET config);;
  record (VertexaiInit (PROJECT_ID config) (LOCATION config));;
  images ← call_generate_images model_name
              (imagen_request_of prompt aspect_ratio);
  end_time ← py_time;
  let elapsed_time := elapsed_2f start_time end_time in
  for_enumerate (imagen_body model_name prompt elapsed_time) 0 images
    arena_output.

(** *** The dispatch facade *)

(** Modelled from the spec: the GenerationRequest of the data model, which
    this module does not declare. *)
Record GenerationRequest : Type := {
  model_identifier : string;
  request_prompt : string;
  aspect_ratio : string;
}.

(** Modelled from the spec: the Dispatch Facade, which this module does not
    contain.  The driver is selected by exact match of the model identifier
    against a static registry, an identifier without a driver fails with
    [UnknownModelError], and the call is delegated whole to the driver. *)
Definition generate
    (registry : gmap string (string → string → string → M (list string)))
    (request : GenerationRequest) : M (list string) :=
  match registry !! model_identifier request with
  | Some driver =>
      driver (model_identifier request) (request_prompt request)
        (aspect_ratio request)
  | None => raise (UnknownModelError (model_identifier request))
  end.

(** Modelled from the spec: a registry with the two drivers of this module,
    the Flux driver under the configured Flux identifier and the Imagen
    driver under the identifiers in [imagen_models]. *)
Definition registry_of (imagen_models : list string)
    : gmap string (string → string → string → M (list string)) :=
  <[MODEL_FLUX1 config := images_from_flux]>
    (list_to_map (map (λ name, (name, images_from_imagen)) imagen_models)).

(** *** The command-line entry point *)

(** The body of [if __name__ == "__main__":]. *)
Definition main : M unit :=
  let prompt := "A futuristic city skyline at sunset" in
  let aspect_ratio := "16:9" in
  let model_name := MODEL_FLUX1 config in
  images ← images_from_flux model_name prompt aspect_ratio;
  match images !! 0 with
  | Some first => print ("Generated images: " +:+ first)
  | None => raise (IndexError "list index out of range")
  end.

End World.

Arguments world : clear implicits.

#[global] Instance exn_eq_dec : EqDecision exn.
Proof. solve_decision. Defined.

(** ** The draw of [random.sample] as a probability space *)

(** [_randbelow(n)] is uniform on [0, n): each of the [n] indices is as
    likely as any other.  The probability of an event on the index is the
    share of the indices on which it holds. *)
Definition probability (n : nat) (event : nat → bool) : Q :=
  Z.of_nat (length (List.filter event (seq 0 n))) # Pos.of_nat n.

(** The locations of the documents that carry one. *)
Definition locations (query : list document) : list string :=
  omap (λ d : document, d !! "gcsuri") query.

(** Every document of the stream carries a location. *)
Definition located (query : list document) : Prop :=
  Forall (λ d : document, is_Some (d !! "gcsuri")) query.

(** The rule as the design document words it: the legacy prefix is looked
    for at the start of the file name. *)
Definition entry_by_filename_rule (gs_uri : string) : string :=
  if negb (PyStr.contains "stablediffusion" gs_uri)
  then fst (posixpath.splitext gs_uri)
  else if PyStr.startswith (posixpath.basename gs_uri) "20250328_"
       then fst (posixpath.splitext gs_uri)
       else gs_uri.

(** ** Reading a run of a driver *)

(** The messages logged at level ERROR. *)
Definition errors_logged (out : list output) : list string :=
  omap (λ o, match o with Log ERROR msg => Some msg | _ => None end) out.

(** The exceptions [add_image_metadata] raised, and the locations it was
    called with. *)
Definition metadata_failures (trace : list event) : list exn :=
  omap (λ ev, match ev with
              | AddImageMetadata _ _ _ (Some e) => Some e
              | _ => None
              end) trace.

Definition metadata_uris (trace : list event) : list string :=
  omap (λ ev, match ev with
              | AddImageMetadata gcsuri _ _ _ => Some gcsuri
              | _ => None
              end) trace.

(** The writes asked of the object store: folder, file name, content type
    and the [decode] flag. *)
Definition store_calls (trace : list event)
    : list (string * string * string * bool) :=
  omap (λ ev, match ev with
              | StoreToGcs folder file_name mime_type _ decode =>
                  Some (folder, file_name, mime_type, decode)
              | _ => None
              end) trace.

(** The metadata writes asked for: location, prompt and model. *)
Definition metadata_calls (trace : list event)
    : list (string * string * string) :=
  omap (λ ev, match ev with
              | AddImageMetadata gcsuri prompt model_name _ =>
                  Some (gcsuri, prompt, model_name)
              | _ => None
              end) trace.

(** The write the Flux driver asks for with the [k]-th identifier drawn. *)
Definition flux_store_call (uuid4_str : nat → string) (k : nat)
    : string * string * string * bool :=
  ("flux1", uuid4_str k +:+ ".png", "image/png", true).

(** [loc] is the location the Flux driver makes of what the object store
    answered to the write under the [k]-th identifier. *)
Definition stored_as {Bucket : Type} (uuid4_str : nat → string)
    (store_to_gcs : string → string → string → option string → bool →
                    Bucket → (exn + string) * Bucket)
    (k : nat) (loc : string) : Prop :=
  ∃ contents b gcs_uri,
    (store_to_gcs "flux1" (uuid4_str k +:+ ".png") "image/png" contents true
       b).1 = inr gcs_uri
    ∧ loc = "gs://" +:+ gcs_uri.

(** The text of the ERROR record a metadata failure leaves. *)
Definition metadata_error_text (e : exn) : string :=
  if PyStr.contains "DeadlineExceeded" (str_of_exn e)
  then "Firestore timeout: " +:+ str_of_exn e
  else "Error adding image metadata: " +:+ str_of_exn e.

Section Reading.

Context {Clock Provider Bucket Firestore : Type}.
Local Abbreviation world := (world Clock Provider Bucket Firestore).
Local Abbreviation M := (@M Clock Provider Bucket Firestore).

(** Weakest precondition: [Q] on a returned value, [E] on a raised
    exception. *)
Definition wp {A : Type} (m : M A) (Q : A → world → Prop)
    (E : exn → world → Prop) (w : world) : Prop :=
  match m w with
  | (inr a, w') => Q a w'
  | (inl e, w') => E e w'
  end.

(** Two worlds that differ at most in what was written out, in the calls
    recorded and in the metadata store. *)
Definition agree (w1 w2 : world) : Prop :=
  w_uuids w1 = w_uuids w2 ∧ w_clock w1 = w_clock w2
  ∧ w_provider w1 = w_provider w2 ∧ w_bucket w1 = w_bucket w2.

(** Two computations that end alike from such worlds, and keep them so. *)
Definition same {A : Type} (m1 m2 : M A) : Prop :=
  ∀ w1 w2, agree w1 w2 →
    (m1 w1).1 = (m2 w2).1 ∧ agree (m1 w1).2 (m2 w2).2.

(** A run from [w]: what it wrote and which calls it made, every metadata
    failure logged, and the metadata calls being those for the locations
    returned. *)
Definition caught_and_logged (w : world) (run : (exn + list string) * world)
    : Prop :=
  ∃ out trace,
    w_out run.2 = w_out w ++ out ∧ w_trace run.2 = w_trace w ++ trace
    ∧ errors_logged out = map metadata_error_text (metadata_failures trace)
    ∧ ∀ uris, run.1 = inr uris → metadata_uris trace = uris.

(** The calls a run from [w] made. *)
Definition calls_of (w w' : world) (trace : list event) : Prop :=
  w_trace w' = w_trace w ++ trace.

(** Since [w0] the metadata writes asked for are those for the locations
    [acc], under the prompt and the model of the request. *)
Definition recorded_since (prompt model_name : string) (w0 : world)
    (acc : list string) (w : world) : Prop :=
  ∃ trace,
    w_trace w = w_trace w0 ++ trace
    ∧ metadata_calls trace = map (λ uri, (uri, prompt, model_name)) acc.

(** What the loops of both drivers keep, seen from the world [w0] the
    driver started in. *)
Definition logged_since (w0 : world) (acc : list string) (w : world) : Prop :=
  ∃ out trace,
    w_out w = w_out w0 ++ out ∧ w_trace w = w_trace w0 ++ trace
    ∧ errors_logged out = map metadata_error_text (metadata_failures trace)
    ∧ metadata_uris trace = acc.

End Reading.

(** ** A small installation to run the drivers on *)

Module Fixture.

Definition config : Default :=
  {| PROJECT_ID := "arena-project";
     LOCATION := "us-central1";
     GENMEDIA_BUCKET := "bucket";
     MODEL_FLUX1 := "flux1";
     MODEL_FLUX1_ENDPOINT_ID := "1234";
     IMAGE_FIREBASE_DB := "arena";
     IMAGE_COLLECTION_NAME := "images" |}.

(** The clock ticks once per reading. *)
Definition time_time (c : nat) : nat * nat := (c, S c).
Definition elapsed_2f (start_time end_time : nat) : string :=
  pretty (end_time - start_time)%nat +:+ ".00".

Definition uuid4_str (k : nat) : string := "uuid-" +:+ pretty k.

(** The provider state is the number of images the next call returns. *)
Definition predict (endpoint : string) (instances : list (gmap string string))
    (parameters : gmap string Z) (p : nat)
    : (exn + list (gmap string string)) * nat :=
  (inr (replicate p {[ "output" := "aGVsbG8=" ]}), p).

Definition generate_images (model_name : string) (request : imagen_request)
    (p : nat) : (exn + list GeneratedImage) * nat :=
  (inr (map (λ k, {| _gcs_uri := rq_output_gcs_uri request +:+ "/"
                                   +:+ pretty k +:+ ".png";
                     _as_base64_string := "aGVsbG8=" |}) (seq 0 p)), p).

(** The bucket is the list of objects written, by name. *)
Definition store_to_gcs (folder file_name mime_type : string)
    (contents : option string) (decode : bool)
    (b : list (string * option string))
    : (exn + string) * list (string * option string) :=
  (inr ("bucket/" +:+ folder +:+ "/" +:+ file_name),
   b ++ [(folder +:+ "/" +:+ file_name, contents)]).

(** A metadata store that takes every record, and one that is down. *)
Definition add_image_metadata (gcsuri prompt model_name : string)
    (f : list document) : option exn * list document :=
  (None, f ++ [mkdoc gcsuri prompt model_name]).

Definition add_image_metadata_down (gcsuri prompt model_name : string)
    (f : list document) : option exn * list document :=
  (Some (Exception "DeadlineExceeded" "504 DeadlineExceeded"), f).

Definition world0 (images : nat)
    : world nat nat (list (string * option string)) (list document) :=
  World [] [] 0 0 images [] [].

Definition flux := images_from_flux config time_time elapsed_2f uuid4_str
  predict store_to_gcs add_image_metadata.

Definition flux_down := images_from_flux config time_time elapsed_2f uuid4_str
  predict store_to_gcs add_image_metadata_down.

Definition imagen :=
  images_from_imagen (Bucket := list (string * option string))
    config time_time elapsed_2f generate_images add_image_metadata.

Definition imagen_down :=
  images_from_imagen (Bucket := list (string * option string))
    config time_time elapsed_2f generate_images add_image_metadata_down.

(** Providers that are out of service. *)
Definition predict_down (endpoint : string)
    (instances : list (gmap string string)) (parameters : gmap string Z)
    (p : nat) : (exn + list (gmap string string)) * nat :=
  (inl (Exception "ServiceUnavailable" "503 failed to connect"), p).

Definition generate_images_down (model_name : string)
    (request : imagen_request) (p : nat)
    : (exn + list GeneratedImage) * nat :=
  (inl (Exception "ResourceExhausted" "429 quota exceeded"), p).

Definition script := main config time_time elapsed_2f uuid4_str predict
  store_to_gcs add_image_metadata.



(** A metadata store whose stream gives the newest record first, and the
    Imagen driver writing to it. *)
Definition add_image_metadata_first (gcsuri prompt model_name : string)
    (f : list document) : option exn * list document :=
  (None, mkdoc gcsuri prompt model_name :: f).

Definition imagen_first :=
  images_from_imagen (Bucket := list (string * option string))
    config time_time elapsed_2f generate_images add_image_metadata_first.

(** The registry of the installation: Flux under the configured identifier,
    Imagen under two of its own. *)
Definition registry :=
  registry_of config time_time elapsed_2f uuid4_str predict generate_images
    store_to_gcs add_image_metadata
    ["imagen-3.0-generate-001"; "imagen-3.0-fast-generate-001"].

End Fixture.

(** ** Strings and paths *)

Lemma take_drop (n : nat) (s : string) : PyStr.take n s +:+ PyStr.drop n s = s.
Proof.
  revert s; induction n as [|n IH]; intros [|a s]; simpl; try reflexivity.
  change (String a (PyStr.take n s +:+ PyStr.drop n s) = String a s).
  by rewrite IH.
Qed.

Lemma append_empty_r (s : string) : s +:+ "" = s.
Proof.
  induction s as [|a s IH]; [reflexivity|].
  change (String a (s +:+ "") = String a s). by rewrite IH.
Qed.



Lemma rfind_lower (c : ascii) (s : string) : (-1 <= PyStr.rfind c s)%Z.
Proof.
  induction s as [|a s IH]; simpl; [lia|].
  destruct (Z.leb_spec 0 (PyStr.rfind c s)); [lia|].
  destruct (Ascii.eqb a c); lia.
Qed.

(** [rfind] points at an occurrence of the needle. *)
Lemma rfind_drop (c : ascii) (s : string) :
  (0 <= PyStr.rfind c s)%Z →
  ∃ t, PyStr.drop (Z.to_nat (PyStr.rfind c s)) s = String c t.
Proof.
  induction s as [|a s IH]; simpl; [lia|].
  destruct (Z.leb_spec 0 (PyStr.rfind c s)) as [Hr|Hr].
  - intros _. destruct (IH Hr) as [t Ht]. exists t.
    replace (Z.to_nat (PyStr.rfind c s + 1)%Z) with (S (Z.to_nat (PyStr.rfind c s)))
      by lia.
    exact Ht.
  - destruct (Ascii.eqb_spec a c) as [->|]; [|lia].
    intros _. by exists s.
Qed.

(** The two halves [splitext] returns make up the path again. *)
Lemma splitext_app (p : string) :
  fst (posixpath.splitext p) +:+ snd (posixpath.splitext p) = p.
Proof.
  unfold posixpath.splitext, genericpath._splitext; simpl.
  destruct (_ && _); simpl.
  - apply take_drop.
  - apply append_empty_r.
Qed.

(** The second half is empty or starts with the dot. *)
Lemma splitext_ext (p : string) :
  snd (posixpath.splitext p) = ""
  ∨ ∃ t, snd (posixpath.splitext p) = String "."%char t.
Proof.
  unfold posixpath.splitext, genericpath._splitext; simpl.
  destruct (_ <? _)%Z eqn:Hlt; simpl; [|by left].
  destruct (genericpath.skip_leading_dots _ _ _ _); simpl; [|by left].
  right. apply rfind_drop.
  apply Z.ltb_lt in Hlt.
  match type of Hlt with (?r < _)%Z => assert (-1 <= r)%Z by apply rfind_lower end.
  unfold posixpath.extsep in *. lia.
Qed.

(** Past its last occurrence a character does not occur. *)
Lemma rfind_drop_after (c : ascii) (s : string) (n : nat) :
  (PyStr.rfind c s < Z.of_nat n)%Z → PyStr.rfind c (PyStr.drop n s) = (-1)%Z.
Proof.
  revert n. induction s as [|a s IH]; intros n Hn.
  - by destruct n.
  - destruct n as [|n].
    + pose proof (rfind_lower c (String a s)). simpl PyStr.drop. lia.
    + simpl PyStr.drop. apply IH. simpl in Hn.
      pose proof (rfind_lower c s).
      destruct (Z.leb_spec 0 (PyStr.rfind c s)); [lia|lia].
Qed.

(** The extension [splitext] splits off holds no separator: a dot in a
    directory name is not taken for the start of an extension. *)
Lemma splitext_ext_no_sep (p : string) :
  PyStr.rfind "/" (snd (posixpath.splitext p)) = (-1)%Z.
Proof.
  unfold posixpath.splitext, genericpath._splitext; simpl.
  destruct (_ <? _)%Z eqn:Hlt; simpl; [|done].
  destruct (genericpath.skip_leading_dots _ _ _ _); simpl; [|done].
  apply Z.ltb_lt in Hlt.
  match type of Hlt with (?r < _)%Z => assert (-1 <= r)%Z by apply rfind_lower end.
  apply rfind_drop_after. unfold posixpath.sep, posixpath.extsep in *. lia.
Qed.

(** ** The provenance query *)

Section StudyFetch.

Implicit Types (collection query : list document) (doc : document).
Implicit Types (gs_uri model_name prompt : string) (j : nat).

Lemma locations_length query : located query → length (locations query) = length query.
Proof.
  unfold locations. induction 1 as [|d q [u Hu] _ IH]; simpl; [done|].
  rewrite Hu. simpl. f_equal. exact IH.
Qed.

Lemma locations_lookup query j doc gs_uri :
  located query → query !! j = Some doc → doc !! "gcsuri" = Some gs_uri →
  locations query !! j = Some gs_uri.
Proof.
  unfold locations. intros Hall. revert j.
  induction Hall as [|d q [u Hu] _ IH]; intros j Hj Hdoc; [done|].
  simpl. rewrite Hu. destruct j as [|j]; simpl in *.
  - congruence.
  - by apply IH.
Qed.

(** The loop leaves one entry per matching document, in the order of the
    stream. *)
Lemma study_fetch_loop_ok query (docs : list string) :
  located query →
  study_fetch_loop query docs
  = inr (docs ++ map study_fetch_entry (locations query)).
Proof.
  unfold locations. intros Hall. revert docs.
  induction Hall as [|d q [u Hu] _ IH]; intros docs; simpl.
  - by rewrite app_nil_r.
  - rewrite Hu. simpl. rewrite IH. by rewrite <- app_assoc.
Qed.

Lemma study_fetch_result collection j model_name prompt :
  located (study_fetch_query collection model_name prompt) →
  result (study_fetch collection j model_name prompt)
  = random_sample_1 j
      (map study_fetch_entry
         (locations (study_fetch_query collection model_name prompt))).
Proof. intros Hall. unfold study_fetch. simpl. by rewrite study_fetch_loop_ok. Qed.

(** When the draw falls on a document, the call returns that document's
    entry and nothing else. *)
Lemma study_fetch_selects collection j model_name prompt doc gs_uri :
  located (study_fetch_query collection model_name prompt) →
  study_fetch_query collection model_name prompt !! j = Some doc →
  doc !! "gcsuri" = Some gs_uri →
  result (study_fetch collection j model_name prompt)
  = inr [study_fetch_entry gs_uri].
Proof.
  intros Hall Hj Hdoc. rewrite study_fetch_result by done.
  pose proof (locations_lookup _ _ _ _ Hall Hj Hdoc) as Hloc.
  unfold random_sample_1.
  rewrite list_lookup_fmap, Hloc. simpl.
  apply lookup_lt_Some in Hloc.
  rewrite length_map.
  destruct (length (locations (study_fetch_query collection model_name prompt)));
    [lia|done].
Qed.

Lemma count_eqb_seq (i k n : nat) :
  length (List.filter (Nat.eqb i) (seq k n))
  = if decide (k ≤ i < k + n)%nat then 1%nat else 0%nat.
Proof.
  revert k. induction n as [|n IH]; intros k; simpl.
  - case_decide; [lia|done].
  - destruct (Nat.eqb_spec i k) as [->|Hne]; simpl; rewrite IH;
      repeat case_decide; lia.
Qed.

Lemma count_lookup_seq {A : Type} `{EqDecision A} (l : list A) (v : A) (k : nat) :
  length (List.filter (λ j, bool_decide (l !! (j - k)%nat = Some v)) (seq k (length l)))
  = length (List.filter (λ x, bool_decide (x = v)) l).
Proof.
  revert k. induction l as [|x l IH]; intros k; [done|].
  simpl. rewrite Nat.sub_diag. simpl.
  assert (List.filter (λ j, bool_decide ((x :: l) !! (j - k)%nat = Some v))
            (seq (S k) (length l))
          = List.filter (λ j, bool_decide (l !! (j - S k)%nat = Some v))
              (seq (S k) (length l))) as ->.
  { apply List.filter_ext_in. intros j Hj. apply in_seq in Hj.
    replace (j - k)%nat with (S (j - S k)) by lia. done. }
  specialize (IH (S k)).
  destruct (decide (x = v)) as [->|Hne].
  - rewrite !bool_decide_eq_true_2 by done. simpl. by rewrite IH.
  - rewrite (bool_decide_eq_false_2 (Some x = Some v)) by congruence.
    rewrite (bool_decide_eq_false_2 (x = v)) by done. done.
Qed.

(** C2.  When no document matches the model and the prompt, the query fails:
    [random.sample] raises [ValueError] on the empty list of entries, the
    error the design document calls NoMatchError.  Nothing is returned,
    whatever the draw. *)
Theorem study_fetch_no_match collection j model_name prompt :
  study_fetch_query collection model_name prompt = [] →
  result (study_fetch collection j model_name prompt)
  = inl (ValueError "Sample larger than population or is negative")
  ∧ ∀ uris, result (study_fetch collection j model_name prompt) ≠ inr uris.
Proof.
  intros Hq. unfold study_fetch. rewrite Hq. simpl. split; [done|].
  by intros uris.
Qed.

Lemma study_fetch_no_match_witness :
  result (study_fetch [mkdoc "gs://bucket/imagen_live/abc.png" "a cat" "imagen"]
            0 "imagen" "a dog")
  = inl (ValueError "Sample larger than population or is negative").
Proof.
  apply (study_fetch_no_match
           [mkdoc "gs://bucket/imagen_live/abc.png" "a cat" "imagen"]
           0 "imagen" "a dog").
  vm_compute. reflexivity.
Defined.

(** C4.  A matching document whose location does not mention
    "stablediffusion" is returned, when the draw falls on it, with the
    extension taken off: the result is the root [os.path.splitext] gives,
    which followed by the extension is the stored location, the extension
    being empty or starting with a dot.  The location
    "gs://bucket/imagen_live/abc.png" comes back as
    "gs://bucket/imagen_live/abc". *)
Theorem study_fetch_strips_extension collection j model_name prompt doc gs_uri :
  located (study_fetch_query collection model_name prompt) →
  study_fetch_query collection model_name prompt !! j = Some doc →
  doc !! "gcsuri" = Some gs_uri →
  PyStr.contains "stablediffusion" gs_uri = false →
  result (study_fetch collection j model_name prompt)
  = inr [fst (posixpath.splitext gs_uri)]
  ∧ fst (posixpath.splitext gs_uri) +:+ snd (posixpath.splitext gs_uri) = gs_uri
  ∧ (snd (posixpath.splitext gs_uri) = ""
     ∨ ∃ t, snd (posixpath.splitext gs_uri) = String "."%char t)
  ∧ (gs_uri = "gs://bucket/imagen_live/abc.png" →
     result (study_fetch collection j model_name prompt)
     = inr ["gs://bucket/imagen_live/abc"]).
Proof.
  intros Hall Hj Hdoc Hfam.
  rewrite (study_fetch_selects _ _ _ _ _ _ Hall Hj Hdoc).
  unfold study_fetch_entry. rewrite Hfam. simpl.
  split; [done|]. split; [apply splitext_app|]. split; [apply splitext_ext|].
  intros ->. vm_compute. reflexivity.
Qed.

Lemma study_fetch_strips_extension_witness :
  result (study_fetch [mkdoc "gs://bucket/flux1/other.png" "a cat" "flux";
                       mkdoc "gs://bucket/imagen_live/abc.png" "a cat" "imagen"]
            0 "imagen" "a cat")
  = inr ["gs://bucket/imagen_live/abc"].
Proof.
  refine (proj2 (proj2 (proj2 (study_fetch_strips_extension
           [mkdoc "gs://bucket/flux1/other.png" "a cat" "flux";
            mkdoc "gs://bucket/imagen_live/abc.png" "a cat" "imagen"]
           0 "imagen" "a cat"
           (mkdoc "gs://bucket/imagen_live/abc.png" "a cat" "imagen")
           "gs://bucket/imagen_live/abc.png" _ _ _ _))) _).
  - vm_compute. repeat constructor. by eexists.
  - vm_compute. reflexivity.
  - vm_compute. reflexivity.
  - vm_compute. reflexivity.
  - reflexivity.
Defined.

(** C1, as the code has it.  A matching document whose location mentions
    "stablediffusion" is returned with the extension taken off when the
    location itself starts with "20250328_", and unchanged otherwise. *)
Theorem study_fetch_legacy_family collection j model_name prompt doc gs_uri :
  located (study_fetch_query collection model_name prompt) →
  study_fetch_query collection model_name prompt !! j = Some doc →
  doc !! "gcsuri" = Some gs_uri →
  PyStr.contains "stablediffusion" gs_uri = true →
  (PyStr.startswith gs_uri "20250328_" = true →
   result (study_fetch collection j model_name prompt)
   = inr [fst (posixpath.splitext gs_uri)])
  ∧ (PyStr.startswith gs_uri "20250328_" = false →
     result (study_fetch collection j model_name prompt) = inr [gs_uri]).
Proof.
  intros Hall Hj Hdoc Hfam.
  rewrite (study_fetch_selects _ _ _ _ _ _ Hall Hj Hdoc).
  unfold study_fetch_entry. rewrite Hfam. simpl.
  split; intros ->; reflexivity.
Qed.

Lemma study_fetch_legacy_family_witness :
  result (study_fetch [mkdoc "20250328_stablediffusion/new.jpg" "a cat" "sd"]
            0 "sd" "a cat")
  = inr ["20250328_stablediffusion/new"].
Proof.
  refine (proj1 (study_fetch_legacy_family
           [mkdoc "20250328_stablediffusion/new.jpg" "a cat" "sd"]
           0 "sd" "a cat"
           (mkdoc "20250328_stablediffusion/new.jpg" "a cat" "sd")
           "20250328_stablediffusion/new.jpg" _ _ _ _) _).
  - vm_compute. repeat constructor. by eexists.
  - vm_compute. reflexivity.
  - vm_compute. reflexivity.
  - vm_compute. reflexivity.
  - vm_compute. reflexivity.
Defined.

(** C1, as the design document has it, fails.  The location
    "gs://bucket/stablediffusion/20250328_new.jpg" mentions the family and
    its file name starts with "20250328_", yet the call returns it with the
    extension in place: the code looks for the prefix at the start of the
    location, not of the file name. *)
Lemma study_fetch_filename_prefix_kept :
  let gs_uri := "gs://bucket/stablediffusion/20250328_new.jpg" in
  PyStr.contains "stablediffusion" gs_uri = true
  ∧ PyStr.startswith (posixpath.basename gs_uri) "20250328_" = true
  ∧ entry_by_filename_rule gs_uri = "gs://bucket/stablediffusion/20250328_new"
  ∧ result (study_fetch [mkdoc gs_uri "a cat" "sd"] 0 "sd" "a cat")
    = inr [gs_uri]
  ∧ result (study_fetch [mkdoc gs_uri "a cat" "sd"] 0 "sd" "a cat")
    ≠ inr [entry_by_filename_rule gs_uri].
Proof. vm_compute. repeat split; try reflexivity. discriminate. Qed.

(** C5.  With a non-empty matching set of [n] documents, the draw [j]
    returns the entry of the [j]-th matching document, so each of the [n]
    equally likely draws stands for one document: the document at any
    position is chosen with probability [1/n], and a value [v] is returned
    with probability [c/n], [c] being the number of matching documents
    whose entry is [v]. *)
Theorem study_fetch_uniform collection model_name prompt :
  let query := study_fetch_query collection model_name prompt in
  let n := length query in
  query ≠ [] → located query →
  (∀ j doc gs_uri, query !! j = Some doc → doc !! "gcsuri" = Some gs_uri →
     result (study_fetch collection j model_name prompt)
     = inr [study_fetch_entry gs_uri])
  ∧ (∀ i, (i < n)%nat → (probability n (Nat.eqb i) == 1 # Pos.of_nat n)%Q)
  ∧ (∀ v, (probability n
             (λ j, bool_decide
                     (result (study_fetch collection j model_name prompt)
                      = inr [v]))
           == Z.of_nat (length (List.filter
                                  (λ u, bool_decide (study_fetch_entry u = v))
                                  (locations query)))
              # Pos.of_nat n)%Q).
Proof.
  intros query n Hne Hall. split; [|split].
  - intros j doc gs_uri Hj Hdoc. by apply study_fetch_selects with doc.
  - intros i Hi. unfold probability. rewrite count_eqb_seq.
    rewrite decide_True by lia. reflexivity.
  - intros v. unfold probability.
    assert (List.filter
              (λ j, bool_decide
                      (result (study_fetch collection j model_name prompt)
                       = inr [v])) (seq 0 n)
            = List.filter
                (λ j, bool_decide
                        (map study_fetch_entry (locations query) !! (j - 0)%nat
                         = Some v)) (seq 0 n)) as ->.
    { apply List.filter_ext_in. intros j Hj. apply in_seq in Hj.
      rewrite study_fetch_result by done. fold query.
      rewrite Nat.sub_0_r. unfold random_sample_1.
      rewrite length_map, locations_length by done. fold n.
      destruct n as [|n']; [lia|]. simpl.
      destruct (map study_fetch_entry (locations query) !! j) as [x|] eqn:Hx.
      - apply bool_decide_ext. split; congruence.
      - rewrite !bool_decide_eq_false_2; [done| |]; congruence. }
    replace n with (length (map study_fetch_entry (locations query)))
      by (by rewrite length_map, locations_length).
    rewrite count_lookup_seq.
    rewrite length_map, locations_length by done.
    assert (length (List.filter (λ x, bool_decide (x = v))
                      (map study_fetch_entry (locations query)))
            = length (List.filter (λ u, bool_decide (study_fetch_entry u = v))
                        (locations query))) as ->; [|reflexivity].
    clear. induction (locations query) as [|u l IH]; [done|]. simpl.
    destruct (bool_decide (study_fetch_entry u = v)); simpl; by rewrite IH.
Qed.

Lemma study_fetch_uniform_witness :
  (probability 2
     (λ j, bool_decide
             (result (study_fetch
                        [mkdoc "gs://bucket/imagen_live/abc.png" "a cat" "imagen";
                         mkdoc "gs://bucket/imagen_live/def.png" "a cat" "imagen"]
                        j "imagen" "a cat")
              = inr ["gs://bucket/imagen_live/def"]))
   == 1 # 2)%Q.
Proof.
  refine (proj2 (proj2 (study_fetch_uniform
           [mkdoc "gs://bucket/imagen_live/abc.png" "a cat" "imagen";
            mkdoc "gs://bucket/imagen_live/def.png" "a cat" "imagen"]
           "imagen" "a cat" _ _)) "gs://bucket/imagen_live/def").
  - vm_compute. discriminate.
  - vm_compute. repeat constructor; by eexists.
Defined.

(** One matching document without a location spoils the whole query. *)
Lemma study_fetch_loop_missing query (docs : list string) :
  ¬ located query → study_fetch_loop query docs = inl (KeyError "gcsuri").
Proof.
  revert docs. induction query as [|d q IH]; intros docs Hn.
  - exfalso. apply Hn. constructor.
  - simpl. destruct (d !! "gcsuri") as [u|] eqn:Hu; [|done].
    apply IH. intros Hq. apply Hn. constructor; [by exists u|done].
Qed.

Lemma locations_lookup_inv query j gs_uri :
  located query → locations query !! j = Some gs_uri →
  ∃ doc, query !! j = Some doc ∧ doc !! "gcsuri" = Some gs_uri.
Proof.
  unfold locations. intros Hall. revert j.
  induction Hall as [|d q [u Hu] _ IH]; intros j Hj; [done|].
  simpl in Hj. rewrite Hu in Hj. destruct j as [|j]; simpl in *.
  - injection Hj as <-. by exists d.
  - by apply IH.
Qed.

Lemma study_fetch_query_elem collection model_name prompt doc :
  doc ∈ study_fetch_query collection model_name prompt ↔
  doc ∈ collection ∧ doc !! "prompt" = Some prompt
  ∧ doc !! "model" = Some model_name.
Proof.
  unfold study_fetch_query, where_eq. rewrite !list_elem_of_filter. tauto.
Qed.

(** X1.  A matching document that has no "gcsuri" field makes the call
    raise [KeyError('gcsuri')], whichever document the draw would have
    picked. *)
Theorem study_fetch_missing_location collection j model_name prompt doc :
  doc ∈ collection →
  doc !! "prompt" = Some prompt → doc !! "model" = Some model_name →
  doc !! "gcsuri" = None →
  result (study_fetch collection j model_name prompt)
  = inl (KeyError "gcsuri").
Proof.
  intros Hin Hp Hm Hnone. unfold study_fetch. simpl.
  rewrite study_fetch_loop_missing; [done|].
  intros Hall. unfold located in Hall. rewrite Forall_forall in Hall.
  destruct (Hall doc) as [u Hu]; [by apply study_fetch_query_elem|congruence].
Qed.

Lemma study_fetch_missing_location_witness :
  result (study_fetch
            [mkdoc "gs://bucket/imagen_live/abc.png" "a cat" "imagen";
             <["prompt" := "a cat"]> (<["model" := "imagen"]> ∅)]
            0 "imagen" "a cat")
  = inl (KeyError "gcsuri").
Proof.
  apply (study_fetch_missing_location
           [mkdoc "gs://bucket/imagen_live/abc.png" "a cat" "imagen";
            <["prompt" := "a cat"]> (<["model" := "imagen"]> ∅)]
           0 "imagen" "a cat"
           (<["prompt" := "a cat"]> (<["model" := "imagen"]> ∅))).
  - apply list_elem_of_In. right. left. reflexivity.
  - vm_compute. reflexivity.
  - vm_compute. reflexivity.
  - vm_compute. reflexivity.
Defined.

(** X2.  What the call returns is a list of exactly one element, the entry
    of a document of the collection whose "prompt" and "model" fields are
    the prompt and the model asked for: a record of another prompt or model
    is never returned. *)
Theorem study_fetch_sound collection j model_name prompt (uris : list string) :
  result (study_fetch collection j model_name prompt) = inr uris →
  ∃ doc gs_uri,
    doc ∈ collection
    ∧ doc !! "prompt" = Some prompt ∧ doc !! "model" = Some model_name
    ∧ doc !! "gcsuri" = Some gs_uri
    ∧ uris = [study_fetch_entry gs_uri].
Proof.
  intros Hres.
  destruct (decide (Forall (λ d : document, is_Some (d !! "gcsuri"))
                      (study_fetch_query collection model_name prompt)))
    as [Hall|Hn].
  - rewrite study_fetch_result in Hres by done.
    unfold random_sample_1 in Hres.
    destruct (negb _); [done|].
    rewrite list_lookup_fmap in Hres.
    destruct (locations _ !! j) as [u|] eqn:Hu; simpl in Hres; [|done].
    injection Hres as <-.
    destruct (locations_lookup_inv _ _ _ Hall Hu) as (doc & Hj & Hdoc).
    apply list_elem_of_lookup_2, study_fetch_query_elem in Hj
      as (Hin & Hp & Hm).
    by exists doc, u.
  - unfold study_fetch in Hres. simpl in Hres.
    by rewrite study_fetch_loop_missing in Hres.
Qed.

Lemma study_fetch_sound_witness :
  ∃ doc gs_uri,
    doc ∈ [mkdoc "gs://bucket/flux1/other.png" "a dog" "flux";
           mkdoc "gs://bucket/imagen_live/abc.png" "a cat" "imagen"]
    ∧ doc !! "prompt" = Some "a cat" ∧ doc !! "model" = Some "imagen"
    ∧ doc !! "gcsuri" = Some gs_uri
    ∧ ["gs://bucket/imagen_live/abc"] = [study_fetch_entry gs_uri].
Proof.
  apply (study_fetch_sound
           [mkdoc "gs://bucket/flux1/other.png" "a dog" "flux";
            mkdoc "gs://bucket/imagen_live/abc.png" "a cat" "imagen"]
           0 "imagen" "a cat" ["gs://bucket/imagen_live/abc"]).
  vm_compute. reflexivity.
Defined.

(** X3.  A document whose prompt or model differs from the ones asked for
    has no part in the call: with it or without it in the collection, the
    call prints and ends the same. *)
Theorem study_fetch_ignores_other_records
    (c1 c2 : list document) (d : document) j model_name prompt :
  ¬ (d !! "prompt" = Some prompt ∧ d !! "model" = Some model_name) →
  study_fetch (c1 ++ d :: c2) j model_name prompt
  = study_fetch (c1 ++ c2) j model_name prompt.
Proof.
  intros Hd.
  assert (study_fetch_query (c1 ++ d :: c2) model_name prompt
          = study_fetch_query (c1 ++ c2) model_name prompt) as Hq.
  { unfold study_fetch_query, where_eq. rewrite !filter_app. f_equal.
    destruct (decide (d !! "prompt" = Some prompt)) as [Hp|Hp].
    - rewrite (filter_cons_True _ d) by done.
      rewrite (filter_cons_False _ d); [done|]. intros Hm. by apply Hd.
    - by rewrite (filter_cons_False _ d). }
  unfold study_fetch. by rewrite Hq.
Qed.

Lemma study_fetch_ignores_other_records_witness :
  study_fetch ([mkdoc "gs://bucket/imagen_live/abc.png" "a cat" "imagen"]
               ++ mkdoc "gs://bucket/imagen_live/zzz.png" "a cat" "flux"
               :: [mkdoc "gs://bucket/imagen_live/def.png" "a cat" "imagen"])
    1 "imagen" "a cat"
  = study_fetch ([mkdoc "gs://bucket/imagen_live/abc.png" "a cat" "imagen"]
                 ++ [mkdoc "gs://bucket/imagen_live/def.png" "a cat" "imagen"])
      1 "imagen" "a cat".
Proof.
  apply (study_fetch_ignores_other_records
           [mkdoc "gs://bucket/imagen_live/abc.png" "a cat" "imagen"]
           [mkdoc "gs://bucket/imagen_live/def.png" "a cat" "imagen"]
           (mkdoc "gs://bucket/imagen_live/zzz.png" "a cat" "flux")
           1 "imagen" "a cat").
  vm_compute. intros [_ H]. discriminate H.
Defined.

(** X4.  Whatever the stored location, the entry made of it is the
    location with at most a suffix cut off; that suffix is empty or starts
    with a dot, and holds no "/": the directories of the location are never
    touched. *)
Theorem study_fetch_entry_cuts_suffix gs_uri :
  ∃ ext,
    study_fetch_entry gs_uri +:+ ext = gs_uri
    ∧ (ext = "" ∨ ∃ t, ext = String "."%char t)
    ∧ PyStr.rfind "/" ext = (-1)%Z.
Proof.
  unfold study_fetch_entry.
  destruct (negb _); [|destruct (PyStr.startswith _ _)].
  1, 2: exists (snd (posixpath.splitext gs_uri));
    split; [apply splitext_app|]; split;
    [apply splitext_ext|apply splitext_ext_no_sep].
  exists "". split; [apply append_empty_r|]. split; [by left|done].
Qed.

End StudyFetch.

(** ** Reasoning about runs *)

Section Runs.

Context {Clock Provider Bucket Firestore : Type}.
Local Abbreviation world := (world Clock Provider Bucket Firestore).
Local Abbreviation M := (@M Clock Provider Bucket Firestore).

Lemma app_nil_since {A : Type} (l : list A) : l = l ++ [].
Proof. by rewrite app_nil_r. Qed.

Lemma app_snoc_since {A : Type} (l l' d x : list A) :
  l' = l ++ d → l' ++ x = l ++ (d ++ x).
Proof. intros ->. by rewrite app_assoc. Qed.

Lemma wp_ret {A : Type} (a : A) (Q : A → world → Prop) E w :
  Q a w → wp (mret a) Q E w.
Proof. done. Qed.

Lemma wp_bind {A B : Type} (m : M A) (k : A → M B) (Q : B → world → Prop) E w :
  wp m (λ a, wp (k a) Q E) E w → wp (m ≫= k) Q E w.
Proof.
  unfold wp, mbind, M_bind, bind. by destruct (m w) as [[e|a] w'].
Qed.

Lemma wp_mono {A : Type} (m : M A) (Q Q' : A → world → Prop)
    (E E' : exn → world → Prop) w :
  (∀ a w', Q a w' → Q' a w') → (∀ e w', E e w' → E' e w') →
  wp m Q E w → wp m Q' E' w.
Proof.
  unfold wp. intros HQ HE. destruct (m w) as [[e|a] w']; auto.
Qed.

(** The loop keeps an invariant its body keeps. *)
Lemma wp_for_enumerate {A St : Type} (body : nat → A → St → M St)
    (I : St → world → Prop) (E : exn → world → Prop) (items : list A) :
  (∀ idx x s w, I s w → wp (body idx x s) I E w) →
  ∀ idx s w, I s w → wp (for_enumerate body idx items s) I E w.
Proof.
  intros Hbody. induction items as [|x items IH]; intros idx s w HI; simpl.
  - done.
  - apply wp_bind. eapply wp_mono; [| |by apply Hbody]; simpl; auto.
Qed.

Lemma wp_run {A : Type} (m : M A) (Q : A → world → Prop) E w :
  wp m Q E w →
  match (m w).1 with inr a => Q a (m w).2 | inl e => E e (m w).2 end.
Proof. unfold wp. by destruct (m w) as [[e|a] w']. Qed.

Lemma same_ret {A : Type} (a : A) : same (mret a : M A) (mret a).
Proof. by intros w1 w2 H. Qed.

Lemma same_bind {A B : Type} (m1 m2 : M A) (k1 k2 : A → M B) :
  same m1 m2 → (∀ a, same (k1 a) (k2 a)) → same (m1 ≫= k1) (m2 ≫= k2).
Proof.
  intros Hm Hk w1 w2 Hw. unfold mbind, M_bind, bind.
  destruct (Hm w1 w2 Hw) as [Hr Hw'].
  destruct (m1 w1) as [[e1|a1] w1'], (m2 w2) as [[e2|a2] w2']; simpl in *;
    try discriminate.
  - injection Hr as ->. by split.
  - injection Hr as ->. by apply Hk.
Qed.

Lemma same_for_enumerate {A St : Type} (body1 body2 : nat → A → St → M St)
    (items : list A) :
  (∀ idx x s, same (body1 idx x s) (body2 idx x s)) →
  ∀ idx s, same (for_enumerate body1 idx items s)
             (for_enumerate body2 idx items s).
Proof.
  intros Hbody. induction items as [|x items IH]; intros idx s; simpl.
  - apply same_ret.
  - apply same_bind; [apply Hbody|]. intros s'. apply IH.
Qed.

Lemma same_emit (o1 o2 : output) : same (emit o1 : M unit) (emit o2).
Proof. intros w1 w2 (?&?&?&?). by repeat split. Qed.

Lemma same_record (ev1 ev2 : event) : same (record ev1 : M unit) (record ev2).
Proof. intros w1 w2 (?&?&?&?). by repeat split. Qed.

Lemma same_len (x : option string) : same (len x : M nat) (len x).
Proof. destruct x; by intros w1 w2 H. Qed.

Section Collaborators.

Context {Time : Type}.
Variable config : Default.
Variable time_time : Clock → Time * Clock.
Variable elapsed_2f : Time → Time → string.
Variable uuid4_str : nat → string.
Variable predict : string → list (gmap string string) → gmap string Z →
  Provider → (exn + list (gmap string string)) * Provider.
Variable generate_images : string → imagen_request →
  Provider → (exn + list GeneratedImage) * Provider.
Variable store_to_gcs : string → string → string → option string → bool →
  Bucket → (exn + string) * Bucket.

Lemma same_py_time : same (py_time time_time : M _) (py_time time_time).
Proof.
  intros w1 w2 (Hu&Hc&Hp&Hb). unfold py_time. rewrite Hc.
  destruct (time_time (w_clock w2)). by repeat split.
Qed.

Lemma same_uuid4 : same (uuid4 uuid4_str : M string) (uuid4 uuid4_str).
Proof.
  intros w1 w2 (Hu&Hc&Hp&Hb). unfold uuid4. rewrite Hu. by repeat split.
Qed.

Lemma same_call_predict endpoint instances parameters :
  same (call_predict predict endpoint instances parameters : M _)
       (call_predict predict endpoint instances parameters).
Proof.
  intros w1 w2 (Hu&Hc&Hp&Hb). unfold call_predict. rewrite Hp.
  destruct (predict _ _ _ _). by repeat split.
Qed.

Lemma same_call_generate_images model_name request :
  same (call_generate_images generate_images model_name request : M _)
       (call_generate_images generate_images model_name request).
Proof.
  intros w1 w2 (Hu&Hc&Hp&Hb). unfold call_generate_images. rewrite Hp.
  destruct (generate_images _ _ _). by repeat split.
Qed.

Lemma same_call_store_to_gcs folder file_name mime_type contents decode :
  same (call_store_to_gcs store_to_gcs folder file_name mime_type contents
          decode : M _)
       (call_store_to_gcs store_to_gcs folder file_name mime_type contents
          decode).
Proof.
  intros w1 w2 (Hu&Hc&Hp&Hb). unfold call_store_to_gcs. rewrite Hb.
  destruct (store_to_gcs _ _ _ _ _ _). by repeat split.
Qed.

(** Whatever the metadata store does, the guarded write ends normally and
    leaves clock, providers and object store alone. *)
Lemma same_guarded_metadata
    (md1 md2 : string → string → string → Firestore → option exn * Firestore)
    gcsuri prompt model_name log_timeout log_other :
  same (try_except (call_add_image_metadata md1 gcsuri prompt model_name)
          (log_metadata_error log_timeout log_other) : M _)
       (try_except (call_add_image_metadata md2 gcsuri prompt model_name)
          (log_metadata_error log_timeout log_other)).
Proof.
  intros w1 w2 (Hu&Hc&Hp&Hb).
  unfold try_except, call_add_image_metadata, log_metadata_error.
  destruct (md1 _ _ _ _) as [[e1|] f1], (md2 _ _ _ _) as [[e2|] f2]; simpl;
    repeat match goal with
           | |- context [PyStr.contains ?a ?b] => destruct (PyStr.contains a b)
           end; by repeat split.
Qed.

Lemma same_flux_body md1 md2 model_name prompt elapsed_time idx img arena_output :
  same (flux_body uuid4_str store_to_gcs md1 model_name prompt elapsed_time
          idx img arena_output : M _)
       (flux_body uuid4_str store_to_gcs md2 model_name prompt elapsed_time
          idx img arena_output).
Proof.
  unfold flux_body.
  apply same_bind; [apply same_emit|intros _].
  apply same_bind; [apply same_uuid4|intros name].
  apply same_bind; [apply same_call_store_to_gcs|intros gcs_uri].
  apply same_bind; [apply same_len|intros n].
  apply same_bind; [apply same_emit|intros _].
  apply same_bind; [apply same_emit|intros _].
  apply same_bind; [apply same_guarded_metadata|intros _].
  apply same_ret.
Qed.

Lemma same_imagen_body md1 md2 model_name prompt elapsed_time idx img arena_output :
  same (imagen_body md1 model_name prompt elapsed_time idx img arena_output
          : M _)
       (imagen_body md2 model_name prompt elapsed_time idx img arena_output).
Proof.
  unfold imagen_body.
  apply same_bind; [apply same_emit|intros _].
  apply same_bind; [apply same_emit|intros _].
  apply same_bind; [apply same_emit|intros _].
  apply same_bind; [apply same_guarded_metadata|intros _].
  apply same_ret.
Qed.

Lemma same_images_from_flux md1 md2 model_name prompt aspect_ratio :
  same (images_from_flux config time_time elapsed_2f uuid4_str predict
          store_to_gcs md1 model_name prompt aspect_ratio : M _)
       (images_from_flux config time_time elapsed_2f uuid4_str predict
          store_to_gcs md2 model_name prompt aspect_ratio).
Proof.
  unfold images_from_flux.
  apply same_bind; [apply same_py_time|intros start_time].
  do 3 (apply same_bind; [apply same_emit|intros _]).
  apply same_bind; [apply same_record|intros _].
  apply same_bind; [apply same_emit|intros _].
  apply same_bind; [apply same_call_predict|intros predictions].
  apply same_bind; [apply same_py_time|intros end_time].
  apply same_for_enumerate. intros idx img acc. apply same_flux_body.
Qed.

Lemma same_images_from_imagen md1 md2 model_name prompt aspect_ratio :
  same (images_from_imagen config time_time elapsed_2f generate_images md1
          model_name prompt aspect_ratio : M _)
       (images_from_imagen config time_time elapsed_2f generate_images md2
          model_name prompt aspect_ratio).
Proof.
  unfold images_from_imagen.
  apply same_bind; [apply same_py_time|intros start_time].
  do 3 (apply same_bind; [apply same_emit|intros _]).
  apply same_bind; [apply same_record|intros _].
  apply same_bind; [apply same_call_generate_images|intros images].
  apply same_bind; [apply same_py_time|intros end_time].
  apply same_for_enumerate. intros idx img acc. apply same_imagen_body.
Qed.

Section Metadata.

Variable add_image_metadata :
  string → string → string → Firestore → option exn * Firestore.

Ltac unfold_driver :=
  unfold wp, mbind, M_bind, bind, logging_info, print,
    uuid4, call_store_to_gcs, len, try_except, call_add_image_metadata,
    call_predict, call_generate_images, py_time, record,
    log_metadata_error, logging_error, emit, mret, M_ret, ret, raise;
  simpl.

Ltac unfold_run := unfold flux_body, imagen_body; unfold_driver.

Ltac run_call :=
  match goal with
  | |- context [store_to_gcs ?a ?b ?c ?d ?e ?f] =>
      destruct (store_to_gcs a b c d e f) as [[?|?] ?] eqn:?
  | |- context [add_image_metadata ?a ?b ?c ?d] =>
      destruct (add_image_metadata a b c d) as [[?|] ?] eqn:?
  | |- context [predict ?a ?b ?c ?d] =>
      destruct (predict a b c d) as [[?|?] ?] eqn:?
  | |- context [generate_images ?a ?b ?c] =>
      destruct (generate_images a b c) as [[?|?] ?] eqn:?
  | |- context [time_time ?a] => destruct (time_time a) as [? ?] eqn:?
  | |- context [PyStr.contains ?a ?b] => destruct (PyStr.contains a b) eqn:?
  end; simpl.

(** [l' = l ++ ?d] for an [l'] built from [l] by appending at the end. *)
Ltac list_since := repeat apply app_snoc_since; apply app_nil_since.

Lemma logged_since_refl (w : world) : logged_since w [] w.
Proof. exists [], []. by rewrite !app_nil_r. Qed.

Lemma logged_since_extend (w0 : world) acc acc' (w w' : world) out trace :
  logged_since w0 acc w →
  w_out w' = w_out w ++ out → w_trace w' = w_trace w ++ trace →
  errors_logged out = map metadata_error_text (metadata_failures trace) →
  acc' = acc ++ metadata_uris trace →
  logged_since w0 acc' w'.
Proof.
  intros (out0 & trace0 & Hout & Htrace & Herr & Huris) Hout' Htrace' Herr' ->.
  exists (out0 ++ out), (trace0 ++ trace).
  rewrite Hout', Htrace', Hout, Htrace, <- !app_assoc.
  unfold errors_logged, metadata_failures, metadata_uris in *.
  rewrite !omap_app, fmap_app, Herr, Herr', Huris. done.
Qed.

Ltac extend_logged H :=
  eapply (logged_since_extend _ _ _ _ _ _ _ H); simpl;
  [list_since | list_since
  | unfold errors_logged, metadata_failures, metadata_error_text; simpl;
    repeat match goal with Hc : PyStr.contains _ _ = _ |- _ => rewrite Hc end;
    reflexivity
  | unfold metadata_uris; simpl; rewrite ?app_nil_r; reflexivity ].

Lemma flux_body_logged (w0 w : world) model_name prompt elapsed_time idx img acc :
  logged_since w0 acc w →
  wp (flux_body uuid4_str store_to_gcs add_image_metadata model_name prompt
        elapsed_time idx img acc)
     (logged_since w0) (λ _ w', ∃ acc', logged_since w0 acc' w') w.
Proof.
  intros H.
  unfold_run. run_call; [|destruct img; simpl; [run_call; [run_call|]|]].
  all: lazymatch goal with
       | |- logged_since _ _ _ => idtac
       | |- _ => eexists
       end; extend_logged H.
Qed.

Lemma imagen_body_logged (w0 w : world) model_name prompt elapsed_time idx img acc :
  logged_since w0 acc w →
  wp (imagen_body add_image_metadata model_name prompt elapsed_time idx img
        acc)
     (logged_since w0) (λ _ w', ∃ acc', logged_since w0 acc' w') w.
Proof.
  intros H.
  unfold_run. run_call; [run_call|].
  all: extend_logged H.
Qed.

Lemma logged_caught (w : world) (run : (exn + list string) * world) :
  match run.1 with
  | inr uris => logged_since w uris run.2
  | inl _ => ∃ acc, logged_since w acc run.2
  end →
  caught_and_logged w run.
Proof.
  destruct run as [[e|uris] w']; simpl.
  - intros (acc & out & trace & Hout & Htrace & Herr & Huris).
    exists out, trace. by repeat split.
  - intros (out & trace & Hout & Htrace & Herr & Huris).
    exists out, trace. repeat split; try done. by intros ? [= <-].
Qed.

Lemma images_from_flux_logged (w : world) model_name prompt aspect_ratio :
  caught_and_logged w
    (images_from_flux config time_time elapsed_2f uuid4_str predict
       store_to_gcs add_image_metadata model_name prompt aspect_ratio w).
Proof.
  apply logged_caught.
  apply (wp_run _ (logged_since w) (λ _ w', ∃ acc, logged_since w acc w')).
  pose proof (logged_since_refl w) as H.
  unfold images_from_flux. unfold_run. run_call. run_call.
  - eexists. extend_logged H.
  - run_call.
    apply (wp_for_enumerate _ (logged_since w)
             (λ _ w', ∃ acc, logged_since w acc w')).
    + intros idx img acc w1 H1. by apply flux_body_logged.
    + extend_logged H.
Qed.

Lemma images_from_imagen_logged (w : world) model_name prompt aspect_ratio :
  caught_and_logged w
    (images_from_imagen config time_time elapsed_2f generate_images
       add_image_metadata model_name prompt aspect_ratio w).
Proof.
  apply logged_caught.
  apply (wp_run _ (logged_since w) (λ _ w', ∃ acc, logged_since w acc w')).
  pose proof (logged_since_refl w) as H.
  unfold images_from_imagen. unfold_run. run_call. run_call.
  - eexists. extend_logged H.
  - run_call.
    apply (wp_for_enumerate _ (logged_since w)
             (λ _ w', ∃ acc, logged_since w acc w')).
    + intros idx img acc w1 H1. by apply imagen_body_logged.
    + extend_logged H.
Qed.

(** One iteration of the Imagen loop: it appends the image's own
    reference, asks for one metadata write, and touches neither the object
    store nor the identifiers. *)
Lemma imagen_body_run (w : world) model_name prompt elapsed_time idx img acc :
  ∃ r f out,
    imagen_body add_image_metadata model_name prompt elapsed_time idx img acc w
    = (inr (acc ++ [_gcs_uri img]),
       World (w_out w ++ out)
         (w_trace w ++ [AddImageMetadata (_gcs_uri img) prompt model_name r])
         (w_uuids w) (w_clock w) (w_provider w) (w_bucket w) f).
Proof.
  unfold_run. run_call; [run_call|]; do 3 eexists; f_equal; f_equal;
    list_since.
Qed.

Lemma imagen_loop_run model_name prompt elapsed_time images :
  ∀ idx acc (w : world),
    let run := for_enumerate
                 (imagen_body add_image_metadata model_name prompt elapsed_time)
                 idx images acc w in
    run.1 = inr (acc ++ map _gcs_uri images)
    ∧ w_bucket run.2 = w_bucket w ∧ w_uuids run.2 = w_uuids w
    ∧ ∃ trace, calls_of w run.2 trace
               ∧ Forall (λ ev, is_store ev = false) trace
               ∧ metadata_uris trace = map _gcs_uri images.
Proof.
  induction images as [|img images IH]; intros idx acc w; simpl.
  - rewrite app_nil_r. repeat split. exists []. unfold calls_of.
    by rewrite app_nil_r.
  - destruct (imagen_body_run w model_name prompt elapsed_time idx img acc)
      as (r & f & out & Hbody).
    unfold mbind, M_bind, bind. rewrite Hbody.
    specialize (IH (S idx) (acc ++ [_gcs_uri img])
                  (World (w_out w ++ out)
                     (w_trace w ++ [AddImageMetadata (_gcs_uri img) prompt model_name r])
                     (w_uuids w) (w_clock w) (w_provider w) (w_bucket w) f)).
    simpl in IH. destruct IH as (Hr & Hb & Hu & trace & Htrace & Hns & Hmd).
    rewrite Hr, Hb, Hu, <- app_assoc. repeat split.
    exists (AddImageMetadata (_gcs_uri img) prompt model_name r :: trace).
    unfold calls_of in *. simpl in Htrace. rewrite Htrace, <- app_assoc.
    repeat split; [by constructor|].
    change (_gcs_uri img :: metadata_uris trace
            = _gcs_uri img :: map _gcs_uri images).
    by rewrite Hmd.
Qed.

(** C8.  The Flux driver does not look at the aspect ratio: with any two
    aspect ratios the run is the same, in the value returned or exception
    raised, in the calls made to the provider and the stores, and in what is
    logged. *)
Theorem flux_ignores_aspect_ratio (model_name prompt a1 a2 : string)
    (w : world) :
  images_from_flux config time_time elapsed_2f uuid4_str predict store_to_gcs
    add_image_metadata model_name prompt a1 w
  = images_from_flux config time_time elapsed_2f uuid4_str predict
      store_to_gcs add_image_metadata model_name prompt a2 w.
Proof. reflexivity. Qed.

(** C9.  When the provider answers with no image, either driver returns the
    empty list without raising, writes nothing to the object store and asks
    for no metadata record. *)
Theorem zero_images_empty_list (model_name prompt aspect_ratio : string)
    (w : world) :
  ((predict (flux_endpoint config) (flux_instances prompt) flux_parameters
      (w_provider w)).1 = inr [] →
   let run := images_from_flux config time_time elapsed_2f uuid4_str predict
                store_to_gcs add_image_metadata model_name prompt
                aspect_ratio w in
   run.1 = inr []
   ∧ w_bucket run.2 = w_bucket w ∧ w_firestore run.2 = w_firestore w
   ∧ ∃ trace, calls_of w run.2 trace
              ∧ Forall (λ ev, is_store ev = false
                              ∧ is_add_metadata ev = false) trace)
  ∧ ((generate_images model_name (imagen_request_of config prompt aspect_ratio)
        (w_provider w)).1 = inr [] →
     let run := images_from_imagen config time_time elapsed_2f generate_images
                  add_image_metadata model_name prompt aspect_ratio w in
     run.1 = inr []
     ∧ w_bucket run.2 = w_bucket w ∧ w_firestore run.2 = w_firestore w
     ∧ ∃ trace, calls_of w run.2 trace
                ∧ Forall (λ ev, is_store ev = false
                                ∧ is_add_metadata ev = false) trace).
Proof.
  split; intros Hzero.
  - unfold images_from_flux. unfold_run. run_call.
    destruct (predict _ _ _ _) as [[e|predictions] p]; simpl in *;
      [done|injection Hzero as ->].
    simpl. run_call. repeat split. eexists. split.
    + unfold calls_of. simpl. list_since.
    + simpl. by repeat constructor.
  - unfold images_from_imagen. unfold_run. run_call.
    destruct (generate_images _ _ _) as [[e|images] p]; simpl in *;
      [done|injection Hzero as ->].
    simpl. run_call. repeat split. eexists. split.
    + unfold calls_of. simpl. list_since.
    + simpl. by repeat constructor.
Qed.

(** C10.  When the provider call succeeds, the Imagen driver returns the
    storage reference of each image of the response, as the provider gave
    it and in the provider's order.  It writes nothing to the object store
    and draws no file name; the metadata writes are for those same
    references. *)
Theorem imagen_returns_provider_references
    (model_name prompt aspect_ratio : string) (images : list GeneratedImage)
    (w : world) :
  (generate_images model_name (imagen_request_of config prompt aspect_ratio)
     (w_provider w)).1 = inr images →
  let run := images_from_imagen config time_time elapsed_2f generate_images
               add_image_metadata model_name prompt aspect_ratio w in
  run.1 = inr (map _gcs_uri images)
  ∧ w_bucket run.2 = w_bucket w ∧ w_uuids run.2 = w_uuids w
  ∧ ∃ trace, calls_of w run.2 trace
             ∧ Forall (λ ev, is_store ev = false) trace
             ∧ metadata_uris trace = map _gcs_uri images.
Proof.
  intros Hok. unfold images_from_imagen. unfold_driver. run_call.
  destruct (generate_images _ _ _) as [[e|images'] p]; simpl in *;
    [done|injection Hok as ->].
  run_call.
  match goal with
  | |- context [for_enumerate ?body ?idx ?l ?acc ?w1] =>
      destruct (imagen_loop_run model_name prompt
                  (elapsed_2f t t0) images idx acc w1)
        as (Hr & Hb & Hu & trace & Htrace & Hns & Hmd)
  end.
  simpl in *. rewrite Hr, Hb, Hu. repeat split.
  exists (VertexaiInit (PROJECT_ID config) (LOCATION config)
          :: GenerateImages model_name (imagen_request_of config prompt aspect_ratio)
          :: trace).
  unfold calls_of in *. rewrite Htrace.
  split.
  { simpl. by rewrite <- !app_assoc. }
  split; [by repeat constructor|done].
Qed.

(** One iteration of the Flux loop draws one identifier and asks for one
    write, under that identifier followed by ".png". *)
Lemma flux_body_run (w : world) model_name prompt elapsed_time idx img acc :
  let run := flux_body uuid4_str store_to_gcs add_image_metadata model_name
               prompt elapsed_time idx img acc w in
  w_uuids run.2 = S (w_uuids w)
  ∧ (∃ trace, calls_of w run.2 trace
              ∧ store_calls trace = [flux_store_call uuid4_str (w_uuids w)])
  ∧ ∀ acc', run.1 = inr acc' →
      ∃ loc, stored_as uuid4_str store_to_gcs (w_uuids w) loc
             ∧ acc' = acc ++ [loc].
Proof.
  unfold_run.
  destruct (store_to_gcs _ _ _ _ _ _) as [[e|gcs_uri] b] eqn:Hstore; simpl;
    [|destruct img; simpl; [run_call; [run_call|]|]].
  all: split; [reflexivity|]; split;
    [eexists; split; [unfold calls_of; simpl; list_since|reflexivity]|].
  all: intros acc' [= <-].
  all: eexists; split; [|reflexivity].
  all: eexists _, _, _; split; [by rewrite Hstore|reflexivity].
Qed.

Lemma flux_loop_run model_name prompt elapsed_time images :
  ∀ idx acc (w : world),
    let run := for_enumerate
                 (flux_body uuid4_str store_to_gcs add_image_metadata
                    model_name prompt elapsed_time) idx images acc w in
    w_uuids w ≤ w_uuids run.2
    ∧ (∃ trace, calls_of w run.2 trace
                ∧ store_calls trace
                  = map (flux_store_call uuid4_str)
                      (seq (w_uuids w) (w_uuids run.2 - w_uuids w)))
    ∧ ∀ acc', run.1 = inr acc' →
        ∃ locs, acc' = acc ++ locs
                ∧ length locs ≤ w_uuids run.2 - w_uuids w
                ∧ Forall2 (stored_as uuid4_str store_to_gcs)
                    (seq (w_uuids w) (length locs)) locs.
Proof.
  induction images as [|img images IH]; intros idx acc w; simpl.
  - rewrite Nat.sub_diag. split; [done|]. split.
    + exists []. unfold calls_of. by rewrite app_nil_r.
    + intros acc' [= <-]. exists []. rewrite app_nil_r. by repeat split.
  - pose proof (flux_body_run w model_name prompt elapsed_time idx img acc)
      as (Hu & (trace1 & Htrace1 & Hcalls1) & Hacc).
    unfold mbind, M_bind, bind.
    destruct (flux_body _ _ _ _ _ _ _ _ _ w) as [[e|acc1] w1]; simpl in *.
    + rewrite Hu. replace (S (w_uuids w) - w_uuids w) with 1 by lia.
      split; [lia|]. split; [by exists trace1|]. by intros acc'.
    + specialize (IH (S idx) acc1 w1). simpl in IH.
      destruct IH as (Hle & (trace2 & Htrace2 & Hcalls2) & Hacc2).
      destruct (Hacc acc1 eq_refl) as (loc & Hloc & ->).
      split; [lia|]. split.
      * exists (trace1 ++ trace2). unfold calls_of in *.
        rewrite Htrace2, Htrace1, <- app_assoc. split; [done|].
        unfold store_calls in *. rewrite omap_app, Hcalls1, Hcalls2, Hu.
        replace (w_uuids _ - w_uuids w)
          with (S (w_uuids
                     (for_enumerate
                        (flux_body uuid4_str store_to_gcs add_image_metadata
                           model_name prompt elapsed_time) (S idx) images
                        (acc ++ [loc]) w1).2 - S (w_uuids w))) by lia.
        done.
      * intros acc' Hacc'. destruct (Hacc2 acc' Hacc') as (locs & -> & Hlen & HF).
        exists (loc :: locs). rewrite <- app_assoc. split; [done|].
        split; [simpl; lia|]. simpl. constructor; [done|]. by rewrite <- Hu.
Qed.

Lemma images_from_flux_run model_name prompt aspect_ratio (w : world) :
  let run := images_from_flux config time_time elapsed_2f uuid4_str predict
               store_to_gcs add_image_metadata model_name prompt aspect_ratio
               w in
  w_uuids w ≤ w_uuids run.2
  ∧ (∃ trace, calls_of w run.2 trace
              ∧ store_calls trace
                = map (flux_store_call uuid4_str)
                    (seq (w_uuids w) (w_uuids run.2 - w_uuids w)))
  ∧ ∀ locs, run.1 = inr locs →
      length locs ≤ w_uuids run.2 - w_uuids w
      ∧ Forall2 (stored_as uuid4_str store_to_gcs)
          (seq (w_uuids w) (length locs)) locs.
Proof.
  unfold images_from_flux. unfold_driver. run_call. run_call.
  - rewrite Nat.sub_diag. split; [done|]. split; [|done].
    eexists. split; [unfold calls_of; simpl; list_since|reflexivity].
  - run_call.
    match goal with
    | |- context [for_enumerate ?body ?idx ?l ?acc ?w1] =>
        pose proof (flux_loop_run model_name prompt (elapsed_2f t t0) l idx
                      acc w1) as (Hle & (trace & Htrace & Hcalls) & Hacc)
    end.
    simpl in *. split; [done|]. split.
    + eexists (_ :: _ :: trace). unfold calls_of in *. rewrite Htrace.
      split; [simpl; by rewrite <- !app_assoc|]. exact Hcalls.
    + intros locs Hlocs. destruct (Hacc locs Hlocs) as (locs' & -> & H1 & H2).
      done.
Qed.

(** C6.  A request whose model identifier has no driver in the registry
    fails with [UnknownModelError] and nothing else happens; a request
    whose identifier is registered is handed whole to the driver registered
    under exactly that identifier. *)
Theorem generate_unknown_model
    (registry : gmap string (string → string → string → M (list string)))
    (request : GenerationRequest) (w : world) :
  (registry !! model_identifier request = None →
   generate registry request w
   = (inl (UnknownModelError (model_identifier request)), w))
  ∧ (∀ driver, registry !! model_identifier request = Some driver →
       generate registry request w
       = driver (model_identifier request) (request_prompt request)
           (aspect_ratio request) w).
Proof.
  split.
  - intros Hnone. unfold generate.
    by destruct (registry !! model_identifier request).
  - intros driver Hsome. unfold generate.
    destruct (registry !! model_identifier request); [|done].
    by injection Hsome as ->.
Qed.

(** X5.  When the provider call raises, either driver raises that same
    exception and stops there: nothing is written to the object store, no
    metadata write is asked for and no file name is drawn. *)
Theorem provider_failure_is_fatal (model_name prompt aspect_ratio : string)
    (e : exn) (w : world) :
  ((predict (flux_endpoint config) (flux_instances prompt) flux_parameters
      (w_provider w)).1 = inl e →
   let run := images_from_flux config time_time elapsed_2f uuid4_str predict
                store_to_gcs add_image_metadata model_name prompt
                aspect_ratio w in
   run.1 = inl e
   ∧ w_bucket run.2 = w_bucket w ∧ w_firestore run.2 = w_firestore w
   ∧ w_uuids run.2 = w_uuids w
   ∧ ∃ trace, calls_of w run.2 trace
              ∧ Forall (λ ev, is_store ev = false
                              ∧ is_add_metadata ev = false) trace)
  ∧ ((generate_images model_name (imagen_request_of config prompt aspect_ratio)
        (w_provider w)).1 = inl e →
     let run := images_from_imagen config time_time elapsed_2f generate_images
                  add_image_metadata model_name prompt aspect_ratio w in
     run.1 = inl e
     ∧ w_bucket run.2 = w_bucket w ∧ w_firestore run.2 = w_firestore w
     ∧ w_uuids run.2 = w_uuids w
     ∧ ∃ trace, calls_of w run.2 trace
                ∧ Forall (λ ev, is_store ev = false
                                ∧ is_add_metadata ev = false) trace).
Proof.
  split; intros Hfail.
  - unfold images_from_flux. unfold_driver. run_call.
    destruct (predict _ _ _ _) as [[e'|predictions] pstate]; simpl in *;
      [injection Hfail as ->|done].
    repeat split. eexists. split.
    + unfold calls_of. simpl. list_since.
    + simpl. by repeat constructor.
  - unfold images_from_imagen. unfold_driver. run_call.
    destruct (generate_images _ _ _) as [[e'|images] pstate]; simpl in *;
      [injection Hfail as ->|done].
    repeat split. eexists. split.
    + unfold calls_of. simpl. list_since.
    + simpl. by repeat constructor.
Qed.

Lemma flux_body_returns (w : world) model_name prompt elapsed_time idx img acc
    acc' :
  (flux_body uuid4_str store_to_gcs add_image_metadata model_name prompt
     elapsed_time idx img acc w).1 = inr acc' →
  is_Some img ∧ length acc' = S (length acc).
Proof.
  unfold_run. run_call; [done|].
  destruct img as [contents|]; simpl; [|done].
  run_call; [run_call|]; intros [= <-]; rewrite length_app; simpl;
    (split; [by eexists|lia]).
Qed.

Lemma flux_loop_returns model_name prompt elapsed_time images :
  ∀ idx acc (w : world) acc',
    (for_enumerate
       (flux_body uuid4_str store_to_gcs add_image_metadata model_name prompt
          elapsed_time) idx images acc w).1 = inr acc' →
    Forall is_Some images ∧ length acc' = length acc + length images.
Proof.
  induction images as [|img images IH]; intros idx acc w acc'; simpl.
  - intros [= <-]. split; [constructor|lia].
  - unfold mbind, M_bind, bind.
    pose proof (flux_body_returns w model_name prompt elapsed_time idx img acc)
      as Hbody.
    destruct (flux_body _ _ _ _ _ _ _ _ _ w) as [[e|acc1] w1]; simpl in *;
      [done|].
    intros Hrest. destruct (Hbody acc1 eq_refl) as [Himg Hlen].
    destruct (IH _ _ _ _ Hrest) as [Hall Hlen'].
    split; [by constructor|lia].
Qed.

(** X7.  The Flux driver returns a list only when the provider call
    succeeded and every prediction of the response has an "output" entry;
    the list then has one location per prediction.  A prediction without
    "output" makes the call raise instead. *)
Theorem flux_returns_one_location_per_prediction
    (model_name prompt aspect_ratio : string) (locs : list string)
    (w : world) :
  (images_from_flux config time_time elapsed_2f uuid4_str predict store_to_gcs
     add_image_metadata model_name prompt aspect_ratio w).1 = inr locs →
  ∃ predictions,
    (predict (flux_endpoint config) (flux_instances prompt) flux_parameters
       (w_provider w)).1 = inr predictions
    ∧ length locs = length predictions
    ∧ Forall (λ prediction : gmap string string,
                is_Some (prediction !! "output")) predictions.
Proof.
  unfold images_from_flux. unfold_driver.
  destruct (time_time (w_clock w)) as [t c]; simpl.
  destruct (predict _ _ _ _) as [[e'|predictions] pstate]; simpl; [done|].
  destruct (time_time c) as [t0 c0]; simpl. intros Hres. apply flux_loop_returns in Hres as [Hall Hlen].
  exists predictions. rewrite length_map in Hlen.
  split; [done|]. split; [done|].
  rewrite Forall_forall in Hall. apply Forall_forall. intros prediction Hin.
  apply Hall, list_elem_of_fmap. by exists prediction.
Qed.

Lemma recorded_since_refl prompt model_name (w : world) :
  recorded_since prompt model_name w [] w.
Proof. exists []. by rewrite app_nil_r. Qed.

Lemma recorded_since_extend prompt model_name (w0 : world) acc acc' extra
    (w w' : world) trace :
  recorded_since prompt model_name w0 acc w →
  w_trace w' = w_trace w ++ trace →
  acc' = acc ++ extra →
  metadata_calls trace = map (λ uri, (uri, prompt, model_name)) extra →
  recorded_since prompt model_name w0 acc' w'.
Proof.
  intros (trace0 & Htrace & Hcalls) Htrace' -> Hcalls'.
  exists (trace0 ++ trace). rewrite Htrace', Htrace, <- app_assoc.
  unfold metadata_calls in *. by rewrite omap_app, fmap_app, Hcalls, Hcalls'.
Qed.

Ltac extend_recorded H acc :=
  lazymatch goal with
  | |- recorded_since _ _ _ (_ ++ ?extra) _ =>
      eapply (recorded_since_extend _ _ _ _ _ extra _ _ _ H);
      [simpl; list_since|reflexivity|reflexivity]
  | |- recorded_since _ _ _ _ _ =>
      eapply (recorded_since_extend _ _ _ _ _ [] _ _ _ H);
      [simpl; list_since|by rewrite app_nil_r|reflexivity]
  | |- _ =>
      exists acc; eapply (recorded_since_extend _ _ _ _ _ [] _ _ _ H);
      [simpl; list_since|by rewrite app_nil_r|reflexivity]
  end.

Lemma flux_body_recorded (w0 w : world) model_name prompt elapsed_time idx img
    acc :
  recorded_since prompt model_name w0 acc w →
  wp (flux_body uuid4_str store_to_gcs add_image_metadata model_name prompt
        elapsed_time idx img acc)
     (recorded_since prompt model_name w0)
     (λ _ w', ∃ acc', recorded_since prompt model_name w0 acc' w') w.
Proof.
  intros H.
  unfold_run. run_call; [|destruct img; simpl; [run_call; [run_call|]|]].
  all: extend_recorded H acc.
Qed.

Lemma imagen_body_recorded (w0 w : world) model_name prompt elapsed_time idx
    img acc :
  recorded_since prompt model_name w0 acc w →
  wp (imagen_body add_image_metadata model_name prompt elapsed_time idx img
        acc)
     (recorded_since prompt model_name w0)
     (λ _ w', ∃ acc', recorded_since prompt model_name w0 acc' w') w.
Proof.
  intros H.
  unfold_run. run_call; [run_call|].
  all: extend_recorded H acc.
Qed.

Lemma recorded_run prompt model_name (w : world)
    (run : (exn + list string) * world) :
  match run.1 with
  | inr uris => recorded_since prompt model_name w uris run.2
  | inl _ => ∃ acc, recorded_since prompt model_name w acc run.2
  end →
  ∃ trace,
    calls_of w run.2 trace
    ∧ Forall (λ call, call.1.2 = prompt ∧ call.2 = model_name)
        (metadata_calls trace)
    ∧ ∀ locs, run.1 = inr locs →
        metadata_calls trace = map (λ uri, (uri, prompt, model_name)) locs.
Proof.
  assert (∀ acc : list string,
            Forall (λ call : string * string * string,
                      call.1.2 = prompt ∧ call.2 = model_name)
              (map (λ uri, (uri, prompt, model_name)) acc)) as Hall.
  { intros acc. apply Forall_forall. intros call Hin.
    apply list_elem_of_fmap in Hin as (uri & -> & _). done. }
  destruct run as [[e|uris] w']; simpl.
  - intros (acc & trace & Htrace & Hcalls). exists trace.
    rewrite Hcalls. by repeat split.
  - intros (trace & Htrace & Hcalls). exists trace.
    rewrite Hcalls. repeat split; try done. by intros ? [= <-].
Qed.

(** X8.  Every metadata write a driver asks for carries the prompt and the
    model name of the call; when the driver returns, the writes asked for
    are, in order, those for the locations returned, one each. *)
Theorem metadata_calls_carry_request (model_name prompt aspect_ratio : string)
    (w : world) :
  let recorded (run : (exn + list string) * world) :=
    ∃ trace,
      calls_of w run.2 trace
      ∧ Forall (λ call, call.1.2 = prompt ∧ call.2 = model_name)
          (metadata_calls trace)
      ∧ ∀ locs, run.1 = inr locs →
          metadata_calls trace = map (λ uri, (uri, prompt, model_name)) locs in
  recorded (images_from_flux config time_time elapsed_2f uuid4_str predict
              store_to_gcs add_image_metadata model_name prompt aspect_ratio w)
  ∧ recorded (images_from_imagen config time_time elapsed_2f generate_images
                add_image_metadata model_name prompt aspect_ratio w).
Proof.
  pose proof (recorded_since_refl prompt model_name w) as H.
  split; apply recorded_run;
    apply (wp_run _ (recorded_since prompt model_name w)
             (λ _ w', ∃ acc, recorded_since prompt model_name w acc w')).
  - unfold images_from_flux. unfold_driver. run_call. run_call.
    + extend_recorded H (@nil string).
    + run_call.
      apply (wp_for_enumerate _ (recorded_since prompt model_name w)
               (λ _ w', ∃ acc, recorded_since prompt model_name w acc w')).
      * intros idx img acc w1 H1. by apply flux_body_recorded.
      * extend_recorded H (@nil string).
  - unfold images_from_imagen. unfold_driver. run_call. run_call.
    + extend_recorded H (@nil string).
    + run_call.
      apply (wp_for_enumerate _ (recorded_since prompt model_name w)
               (λ _ w', ∃ acc, recorded_since prompt model_name w acc w')).
      * intros idx img acc w1 H1. by apply imagen_body_recorded.
      * extend_recorded H (@nil string).
Qed.

(** X10.  Run as a script, the module asks the Flux driver for one
    hard-wired request and prints the first location.  When the provider
    answers with no prediction the driver returns the empty list and
    [images[0]] raises [IndexError]: the script fails and prints nothing
    about a generated image. *)
Theorem main_needs_an_image (w : world) :
  (predict (flux_endpoint config)
     (flux_instances "A futuristic city skyline at sunset") flux_parameters
     (w_provider w)).1 = inr [] →
  let run := main config time_time elapsed_2f uuid4_str predict store_to_gcs
               add_image_metadata w in
  run.1 = inl (IndexError "list index out of range")
  ∧ ∃ out, w_out run.2 = w_out w ++ out
           ∧ Forall (λ o, ∀ line, o ≠ Print ("Generated images: " +:+ line)) out.
Proof.
  intros Hzero. unfold main, images_from_flux. unfold_driver.
  destruct (time_time (w_clock w)) as [t c]; simpl.
  destruct (predict _ _ _ _) as [[e'|predictions] pstate]; simpl in *;
    [done|injection Hzero as ->].
  destruct (time_time c) as [t0 c0]; simpl.
  split; [done|]. eexists. split; [list_since|].
  simpl. by repeat constructor.
Qed.

Section RoundTrip.

(** The documents of the image collection that a state of the metadata
    store holds, in the order the query streams them; and a metadata store
    in working order: a write adds one document with the three fields,
    wherever the stream then puts it. *)
Variable docs_of : Firestore → list document.
Hypothesis add_image_metadata_stores :
  ∀ gcsuri prompt model_name f,
    docs_of (add_image_metadata gcsuri prompt model_name f).2
    ≡ₚ mkdoc gcsuri prompt model_name :: docs_of f.

Lemma imagen_body_docs (w : world) model_name prompt elapsed_time idx img acc :
  docs_of (w_firestore
             (imagen_body add_image_metadata model_name prompt elapsed_time
                idx img acc w).2)
  ≡ₚ mkdoc (_gcs_uri img) prompt model_name :: docs_of (w_firestore w).
Proof.
  pose proof (add_image_metadata_stores (_gcs_uri img) prompt model_name
                (w_firestore w)) as Hdocs.
  unfold_run. run_call; [run_call|]; simpl in *; exact Hdocs.
Qed.

Lemma imagen_loop_docs model_name prompt elapsed_time images :
  ∀ idx acc (w : world),
    docs_of (w_firestore
               (for_enumerate
                  (imagen_body add_image_metadata model_name prompt
                     elapsed_time) idx images acc w).2)
    ≡ₚ docs_of (w_firestore w)
       ++ map (λ img, mkdoc (_gcs_uri img) prompt model_name) images.
Proof.
  induction images as [|img images IH]; intros idx acc w; simpl.
  - by rewrite app_nil_r.
  - unfold mbind, M_bind, bind.
    pose proof (imagen_body_docs w model_name prompt elapsed_time idx img acc)
      as Hbody.
    destruct (imagen_body_run w model_name prompt elapsed_time idx img acc)
      as (r & f & out & Heq).
    rewrite Heq in Hbody |- *. simpl in Hbody.
    rewrite IH. simpl. rewrite Hbody. simpl.
    apply Permutation_middle.
Qed.

Lemma mkdoc_lookup gcsuri prompt model_name :
  mkdoc gcsuri prompt model_name !! "gcsuri" = Some gcsuri
  ∧ mkdoc gcsuri prompt model_name !! "prompt" = Some prompt
  ∧ mkdoc gcsuri prompt model_name !! "model" = Some model_name.
Proof. unfold mkdoc. repeat split; by simplify_map_eq. Qed.

Lemma study_fetch_query_own model_name prompt (uris : list string) :
  study_fetch_query (map (λ uri, mkdoc uri prompt model_name) uris)
    model_name prompt
  = map (λ uri, mkdoc uri prompt model_name) uris.
Proof.
  unfold study_fetch_query, where_eq.
  induction uris as [|uri uris IH]; [done|]. simpl.
  destruct (mkdoc_lookup uri prompt model_name) as (_ & Hp & Hm).
  rewrite (filter_cons_True _ (mkdoc uri prompt model_name)) by done.
  rewrite (filter_cons_True _ (mkdoc uri prompt model_name)) by done.
  by rewrite IH.
Qed.

Lemma locations_own model_name prompt (uris : list string) :
  locations (map (λ uri, mkdoc uri prompt model_name) uris) = uris.
Proof.
  unfold locations. induction uris as [|uri uris IH]; [done|].
  rewrite fmap_cons. cbn [omap list_omap].
  destruct (mkdoc_lookup uri prompt model_name) as (Hu & _).
  rewrite Hu. f_equal. exact IH.
Qed.

(** What the draws [0 .. n-1] return, [n] being the number of entries. *)
Lemma study_fetch_draws collection model_name prompt :
  located (study_fetch_query collection model_name prompt) →
  map (λ j, result (study_fetch collection j model_name prompt))
    (seq 0 (length (locations
                      (study_fetch_query collection model_name prompt))))
  = map (λ uri, inr [study_fetch_entry uri])
      (locations (study_fetch_query collection model_name prompt)).
Proof.
  intros Hall. apply list_eq. intros i. rewrite !list_lookup_fmap.
  destruct (locations (study_fetch_query collection model_name prompt) !! i)
    as [uri|] eqn:Hi; simpl.
  - pose proof (lookup_lt_Some _ _ _ Hi) as Hlt.
    pose proof (study_fetch_result collection i model_name prompt Hall)
      as Hres.
    rewrite lookup_seq_lt by done. simpl. f_equal.
    etrans; [exact Hres|]. unfold random_sample_1.
    rewrite list_lookup_fmap, Hi, length_map. simpl.
    destruct (length (locations
                        (study_fetch_query collection model_name prompt)));
      [lia|done].
  - apply lookup_ge_None in Hi. by rewrite lookup_seq_ge.
Qed.

(** X11.  Generation and query fit together.  With a metadata store in
    working order that holds no record yet for the model and the prompt,
    after a call of the Imagen driver that returned [n] locations the
    draws [0 .. n-1] of the query for that model and prompt return the
    returned locations as [study_fetch] normalises them, each location on
    one draw; which draw returns which is up to the order of the stream. *)
Theorem imagen_then_study_fetch (model_name prompt aspect_ratio : string)
    (locs : list string) (w : world) :
  study_fetch_query (docs_of (w_firestore w)) model_name prompt = [] →
  let run := images_from_imagen config time_time elapsed_2f generate_images
               add_image_metadata model_name prompt aspect_ratio w in
  run.1 = inr locs →
  map (λ j, result (study_fetch (docs_of (w_firestore run.2)) j model_name
                      prompt))
    (seq 0 (length locs))
  ≡ₚ map (λ uri, inr [study_fetch_entry uri]) locs.
Proof.
  intros Hnone run Hret.
  assert (docs_of (w_firestore run.2)
          ≡ₚ docs_of (w_firestore w)
             ++ map (λ uri, mkdoc uri prompt model_name) locs) as Hdocs.
  { revert Hret. unfold run, images_from_imagen. unfold_driver.
    destruct (time_time (w_clock w)) as [t c]; simpl.
    destruct (generate_images _ _ _) as [[e'|images] pstate]; simpl; [done|].
    destruct (time_time c) as [t0 c0]; simpl.
    match goal with
    | |- context [for_enumerate ?body ?idx ?l ?acc ?w1] =>
        destruct (imagen_loop_run model_name prompt
                    (elapsed_2f t t0) l idx acc w1) as (Hr & _)
    end.
    simpl in Hr. rewrite Hr. simpl. intros [= <-].
    rewrite imagen_loop_docs. simpl. by rewrite map_map. }
  assert (study_fetch_query (docs_of (w_firestore run.2)) model_name prompt
          ≡ₚ map (λ uri, mkdoc uri prompt model_name) locs) as Hq.
  { pose proof (study_fetch_query_own model_name prompt locs) as Hown.
    unfold study_fetch_query, where_eq in *.
    rewrite Hdocs, !filter_app, Hnone. simpl. by rewrite Hown. }
  assert (located (study_fetch_query (docs_of (w_firestore run.2)) model_name
                     prompt)) as Hall.
  { unfold located. rewrite Hq. apply Forall_forall. intros doc Hin.
    apply list_elem_of_fmap in Hin as (uri & -> & _).
    exists uri. apply mkdoc_lookup. }
  assert (locations (study_fetch_query (docs_of (w_firestore run.2))
                       model_name prompt) ≡ₚ locs) as Hlocs.
  { unfold locations. rewrite Hq. fold (locations
      (map (λ uri, mkdoc uri prompt model_name) locs)).
    by rewrite locations_own. }
  rewrite <- (Permutation_length Hlocs), study_fetch_draws by done.
  by rewrite Hlocs.
Qed.

End RoundTrip.

(** X12.  Each location the Flux driver returns is "gs://" followed by
    what the object store answered to the write under one of the
    identifiers drawn during the call, the [i]-th location going with the
    [i]-th identifier drawn. *)
Theorem flux_locations_are_store_answers
    (model_name prompt aspect_ratio : string) (locs : list string)
    (w : world) :
  (images_from_flux config time_time elapsed_2f uuid4_str predict store_to_gcs
     add_image_metadata model_name prompt aspect_ratio w).1 = inr locs →
  Forall2 (stored_as uuid4_str store_to_gcs)
    (seq (w_uuids w) (length locs)) locs
  ∧ Forall (λ loc, PyStr.startswith loc "gs://" = true) locs.
Proof.
  intros Hres.
  destruct (images_from_flux_run model_name prompt aspect_ratio w)
    as (_ & _ & Hlocs).
  destruct (Hlocs locs Hres) as [_ HF]. split; [done|].
  clear Hres Hlocs. induction HF as [|k loc ks locs' Hk _ IH]; constructor;
    [|done].
  destruct Hk as (contents & b & gcs_uri & _ & ->).
  by destruct gcs_uri.
Qed.

End Metadata.

Lemma agree_refl (w : world) : agree w w.
Proof. by repeat split. Qed.

(** C3.  Whatever [add_image_metadata] does, be it raising on some or on all
    of its calls, both drivers end as they end with any other metadata store
    [md'], one that never raises among them: the same list of locations is
    returned (or the same provider or object-store error raised).  The
    exceptions of [add_image_metadata] are caught: each leaves one ERROR
    record in the log, and the list returned holds the location of every
    metadata call made, those that raised included. *)
Theorem metadata_failure_isolated
    (md md' : string → string → string → Firestore → option exn * Firestore)
    (model_name prompt aspect_ratio : string) (w : world) :
  let flux md :=
    images_from_flux config time_time elapsed_2f uuid4_str predict
      store_to_gcs md model_name prompt aspect_ratio in
  let imagen md :=
    images_from_imagen config time_time elapsed_2f generate_images md
      model_name prompt aspect_ratio in
  ((flux md w).1 = (flux md' w).1 ∧ caught_and_logged w (flux md w))
  ∧ ((imagen md w).1 = (imagen md' w).1 ∧ caught_and_logged w (imagen md w)).
Proof.
  simpl. repeat split.
  - apply same_images_from_flux, agree_refl.
  - apply images_from_flux_logged.
  - apply same_images_from_imagen, agree_refl.
  - apply images_from_imagen_logged.
Qed.

Lemma same_guarded_metadata_any
    (md1 md2 : string → string → string → Firestore → option exn * Firestore)
    gcsuri1 gcsuri2 prompt1 prompt2 model1 model2 log_timeout log_other :
  same (try_except (call_add_image_metadata md1 gcsuri1 prompt1 model1)
          (log_metadata_error log_timeout log_other) : M _)
       (try_except (call_add_image_metadata md2 gcsuri2 prompt2 model2)
          (log_metadata_error log_timeout log_other)).
Proof.
  intros w1 w2 (Hu&Hc&Hp&Hb).
  unfold try_except, call_add_image_metadata, log_metadata_error.
  destruct (md1 _ _ _ _) as [[e1|] f1], (md2 _ _ _ _) as [[e2|] f2]; simpl;
    repeat match goal with
           | |- context [PyStr.contains ?a ?b] => destruct (PyStr.contains a b)
           end; by repeat split.
Qed.

(** X9.  The model name picks nothing in the Flux driver: the endpoint
    called is the configured one, and with any two model names the call
    ends alike (same locations returned or same exception raised) and
    leaves the provider, the object store and the identifier count in the
    same state.  The name only labels the log and the metadata. *)
Theorem flux_ignores_model_name
    (md : string → string → string → Firestore → option exn * Firestore)
    (model1 model2 prompt aspect_ratio : string) (w : world) :
  let run1 := images_from_flux config time_time elapsed_2f uuid4_str predict
                store_to_gcs md model1 prompt aspect_ratio w in
  let run2 := images_from_flux config time_time elapsed_2f uuid4_str predict
                store_to_gcs md model2 prompt aspect_ratio w in
  run1.1 = run2.1
  ∧ w_provider run1.2 = w_provider run2.2
  ∧ w_bucket run1.2 = w_bucket run2.2
  ∧ w_uuids run1.2 = w_uuids run2.2.
Proof.
  assert (same (images_from_flux config time_time elapsed_2f uuid4_str predict
                  store_to_gcs md model1 prompt aspect_ratio : M _)
               (images_from_flux config time_time elapsed_2f uuid4_str predict
                  store_to_gcs md model2 prompt aspect_ratio)) as Hsame.
  { unfold images_from_flux.
    apply same_bind; [apply same_py_time|intros start_time].
    do 3 (apply same_bind; [apply same_emit|intros _]).
    apply same_bind; [apply same_record|intros _].
    apply same_bind; [apply same_emit|intros _].
    apply same_bind; [apply same_call_predict|intros predictions].
    apply same_bind; [apply same_py_time|intros end_time].
    apply same_for_enumerate. intros idx img acc. unfold flux_body.
    apply same_bind; [apply same_emit|intros _].
    apply same_bind; [apply same_uuid4|intros name].
    apply same_bind; [apply same_call_store_to_gcs|intros gcs_uri].
    apply same_bind; [apply same_len|intros n].
    apply same_bind; [apply same_emit|intros _].
    apply same_bind; [apply same_emit|intros _].
    apply same_bind; [apply same_guarded_metadata_any|intros _].
    apply same_ret. }
  destruct (Hsame w w (agree_refl w)) as (Hr & Hu & _ & Hp & Hb).
  by repeat split.
Qed.

End Collaborators.

End Runs.

(** ** Two calls of the Flux driver *)



Section TwoCalls.

Context {Time Clock Provider Bucket Firestore : Type}.
Local Abbreviation world := (world Clock Provider Bucket Firestore).

Variable config : Default.
Variable time_time : Clock → Time * Clock.
Variable elapsed_2f : Time → Time → string.
Variable predict : string → list (gmap string string) → gmap string Z →
                   Provider → (exn + list (gmap string string)) * Provider.
Variable store_to_gcs : string → string → string → option string → bool →
                        Bucket → (exn + string) * Bucket.
Variable add_image_metadata :
  string → string → string → Firestore → option exn * Firestore.



End TwoCalls.

(** A run with the metadata store down: the location is returned all the
    same and the failure is in the log. *)
Example flux_down_run :
  let run := Fixture.flux_down "flux1" "a cat" "1:1" (Fixture.world0 1) in
  run.1 = inr ["gs://bucket/flux1/uuid-0.png"]
  ∧ run.1 = (Fixture.flux "flux1" "a cat" "1:1" (Fixture.world0 1)).1
  ∧ errors_logged (w_out run.2) = ["Firestore timeout: 504 DeadlineExceeded"]
  ∧ w_firestore run.2 = [].
Proof. vm_compute. by repeat split. Qed.

(** ** The installation at work *)


Lemma generate_unknown_model_witness :
  (generate Fixture.registry
     {| model_identifier := "stable-diffusion-xl";
        request_prompt := "a cat";
        aspect_ratio := "1:1" |} (Fixture.world0 1)).1
  = inl (UnknownModelError "stable-diffusion-xl").
Proof.
  rewrite (proj1 (generate_unknown_model Fixture.registry
                    {| model_identifier := "stable-diffusion-xl";
                       request_prompt := "a cat";
                       aspect_ratio := "1:1" |} (Fixture.world0 1))).
  - reflexivity.
  - vm_compute. reflexivity.
Defined.

Lemma zero_images_empty_list_witness :
  (Fixture.flux "flux1" "a cat" "1:1" (Fixture.world0 0)).1 = inr []
  ∧ (Fixture.imagen "imagen-3.0-generate-001" "a cat" "1:1"
       (Fixture.world0 0)).1 = inr [].
Proof.
  split.
  - apply (proj1 (zero_images_empty_list Fixture.config Fixture.time_time
                    Fixture.elapsed_2f Fixture.uuid4_str Fixture.predict
                    Fixture.generate_images Fixture.store_to_gcs
                    Fixture.add_image_metadata "flux1" "a cat" "1:1"
                    (Fixture.world0 0))).
    reflexivity.
  - apply (proj2 (zero_images_empty_list Fixture.config Fixture.time_time
                    Fixture.elapsed_2f Fixture.uuid4_str Fixture.predict
                    Fixture.generate_images Fixture.store_to_gcs
                    Fixture.add_image_metadata "imagen-3.0-generate-001"
                    "a cat" "1:1" (Fixture.world0 0))).
    reflexivity.
Defined.

Lemma imagen_returns_provider_references_witness :
  (Fixture.imagen "imagen-3.0-generate-001" "a cat" "16:9"
     (Fixture.world0 2)).1
  = inr ["gs://bucket/imagen_live/0.png"; "gs://bucket/imagen_live/1.png"].
Proof.
  apply (imagen_returns_provider_references (Bucket := list (string * option string))
           Fixture.config Fixture.time_time
           Fixture.elapsed_2f Fixture.generate_images
           Fixture.add_image_metadata "imagen-3.0-generate-001" "a cat" "16:9"
           [ {| _gcs_uri := "gs://bucket/imagen_live/0.png";
                _as_base64_string := "aGVsbG8=" |};
             {| _gcs_uri := "gs://bucket/imagen_live/1.png";
                _as_base64_string := "aGVsbG8=" |} ]
           (Fixture.world0 2)).
  vm_compute. reflexivity.
Defined.



(** Two calls for the same request: four different locations. *)
Example flux_twice :
  let run1 := Fixture.flux "flux1" "a cat" "1:1" (Fixture.world0 2) in
  let run2 := Fixture.flux "flux1" "a cat" "1:1" run1.2 in
  run1.1 = inr ["gs://bucket/flux1/uuid-0.png"; "gs://bucket/flux1/uuid-1.png"]
  ∧ run2.1 = inr ["gs://bucket/flux1/uuid-2.png";
                  "gs://bucket/flux1/uuid-3.png"]
  ∧ store_calls (w_trace run2.2)
    = map (flux_store_call Fixture.uuid4_str) [0; 1; 2; 3].
Proof. vm_compute. by repeat split. Qed.

Lemma provider_failure_is_fatal_witness :
  (images_from_flux Fixture.config Fixture.time_time Fixture.elapsed_2f
     Fixture.uuid4_str Fixture.predict_down Fixture.store_to_gcs
     Fixture.add_image_metadata "flux1" "a cat" "1:1" (Fixture.world0 1)).1
  = inl (Exception "ServiceUnavailable" "503 failed to connect")
  ∧ (images_from_imagen (Bucket := list (string * option string))
       Fixture.config Fixture.time_time Fixture.elapsed_2f
       Fixture.generate_images_down Fixture.add_image_metadata
       "imagen-3.0-generate-001" "a cat" "1:1" (Fixture.world0 1)).1
    = inl (Exception "ResourceExhausted" "429 quota exceeded").
Proof.
  split.
  - apply (proj1 (provider_failure_is_fatal Fixture.config Fixture.time_time
                    Fixture.elapsed_2f Fixture.uuid4_str Fixture.predict_down
                    Fixture.generate_images_down Fixture.store_to_gcs
                    Fixture.add_image_metadata "flux1" "a cat" "1:1"
                    (Exception "ServiceUnavailable" "503 failed to connect")
                    (Fixture.world0 1))).
    reflexivity.
  - apply (proj2 (provider_failure_is_fatal Fixture.config Fixture.time_time
                    Fixture.elapsed_2f Fixture.uuid4_str Fixture.predict_down
                    Fixture.generate_images_down Fixture.store_to_gcs
                    Fixture.add_image_metadata "imagen-3.0-generate-001"
                    "a cat" "1:1"
                    (Exception "ResourceExhausted" "429 quota exceeded")
                    (Fixture.world0 1))).
    reflexivity.
Defined.

Lemma flux_returns_one_location_per_prediction_witness :
  ∃ predictions : list (gmap string string),
    (Fixture.predict (flux_endpoint Fixture.config) (flux_instances "a cat")
       flux_parameters 2).1 = inr predictions
    ∧ length ["gs://bucket/flux1/uuid-0.png"; "gs://bucket/flux1/uuid-1.png"]
      = length predictions
    ∧ Forall (λ prediction : gmap string string,
                is_Some (prediction !! "output")) predictions.
Proof.
  apply (flux_returns_one_location_per_prediction Fixture.config
           Fixture.time_time Fixture.elapsed_2f Fixture.uuid4_str
           Fixture.predict Fixture.store_to_gcs Fixture.add_image_metadata
           "flux1" "a cat" "1:1"
           ["gs://bucket/flux1/uuid-0.png"; "gs://bucket/flux1/uuid-1.png"]
           (Fixture.world0 2)).
  vm_compute. reflexivity.
Defined.

Lemma main_needs_an_image_witness :
  (Fixture.script (Fixture.world0 0)).1
  = inl (IndexError "list index out of range").
Proof.
  apply (main_needs_an_image Fixture.config Fixture.time_time
           Fixture.elapsed_2f Fixture.uuid4_str Fixture.predict
           Fixture.store_to_gcs Fixture.add_image_metadata (Fixture.world0 0)).
  reflexivity.
Defined.

Lemma imagen_then_study_fetch_witness :
  map (λ j, result (study_fetch
                      (w_firestore
                         (Fixture.imagen_first "imagen-3.0-generate-001"
                            "a cat" "16:9" (Fixture.world0 2)).2)
                      j "imagen-3.0-generate-001" "a cat"))
    [0; 1]
  ≡ₚ [inr ["gs://bucket/imagen_live/0"]; inr ["gs://bucket/imagen_live/1"]].
Proof.
  apply (imagen_then_study_fetch (Bucket := list (string * option string))
           Fixture.config Fixture.time_time Fixture.elapsed_2f
           Fixture.generate_images Fixture.add_image_metadata_first
           (λ f : list document, f)
           (λ gcsuri prompt model_name f, reflexivity _)
           "imagen-3.0-generate-001" "a cat" "16:9"
           ["gs://bucket/imagen_live/0.png"; "gs://bucket/imagen_live/1.png"]
           (Fixture.world0 2)).
  - vm_compute. reflexivity.
  - vm_compute. reflexivity.
Defined.

(** With the newest record first in the stream, draw 0 returns the second
    image of the response and draw 1 the first. *)
Example imagen_first_draws :
  let docs := w_firestore (Fixture.imagen_first "imagen-3.0-generate-001"
                             "a cat" "16:9" (Fixture.world0 2)).2 in
  result (study_fetch docs 0 "imagen-3.0-generate-001" "a cat")
  = inr ["gs://bucket/imagen_live/1"]
  ∧ result (study_fetch docs 1 "imagen-3.0-generate-001" "a cat")
    = inr ["gs://bucket/imagen_live/0"].
Proof. vm_compute. by split. Qed.

Lemma flux_locations_are_store_answers_witness :
  Forall (λ loc, PyStr.startswith loc "gs://" = true)
    ["gs://bucket/flux1/uuid-0.png"; "gs://bucket/flux1/uuid-1.png"].
Proof.
  apply (flux_locations_are_store_answers Fixture.config Fixture.time_time
           Fixture.elapsed_2f Fixture.uuid4_str Fixture.predict
           Fixture.store_to_gcs Fixture.add_image_metadata
           "flux1" "a cat" "1:1"
           ["gs://bucket/flux1/uuid-0.png"; "gs://bucket/flux1/uuid-1.png"]
           (Fixture.world0 2)).
  vm_compute. reflexivity.
Defined.

(** The script on a provider that answers with one image. *)
Example script_run :
  let run := Fixture.script (Fixture.world0 1) in
  run.1 = inr ()
  ∧ last (w_out run.2)
    = Some (Print "Generated images: gs://bucket/flux1/uuid-0.png").
Proof. vm_compute. by split. Qed.
